(** * pipeline.py: the DuckDB loan pipeline, as a shallow embedding

    The program is one Python function, [main], that sends a fixed sequence
    of SQL statements to a DuckDB connection.  Each statement builds one
    table from the tables built before it.  A table is modelled as the list
    of its rows, a row as a record with one field per column, a nullable
    column as an [option], and a SQL truth value as an [option bool] with
    the three-valued connectives of SQL. *)

From Stdlib Require Import ZArith QArith Lia Bool Ascii String.
From stdpp Require Import base option list sorting strings.

Open Scope Z_scope.

(** ** SQL expressions over nullable values *)

Module SQL.

(** A SQL boolean: TRUE, FALSE or NULL. *)
Definition tri : Type := option bool.

Definition TRUE : tri := Some true.
Definition FALSE : tri := Some false.
Definition UNKNOWN : tri := None.

Definition AND (a b : tri) : tri :=
  match a, b with
  | Some false, _ | _, Some false => Some false
  | Some true, Some true => Some true
  | _, _ => None
  end.

Definition OR (a b : tri) : tri :=
  match a, b with
  | Some true, _ | _, Some true => Some true
  | Some false, Some false => Some false
  | _, _ => None
  end.

Definition NOT (a : tri) : tri := negb <$> a.

Definition IS_NULL {A} (x : option A) : tri :=
  Some (match x with None => true | Some _ => false end).

Definition IS_NOT_NULL {A} (x : option A) : tri :=
  Some (match x with None => false | Some _ => true end).

(** A binary comparison: NULL as soon as one side is NULL. *)
Definition cmp {A B} (f : A -> B -> bool) (x : option A) (y : option B) : tri :=
  match x, y with
  | Some a, Some b => Some (f a b)
  | _, _ => None
  end.

(** A predicate in a WHERE, HAVING, ON or WHEN position holds only when it
    evaluates to TRUE; FALSE and NULL both reject. *)
Definition holds (t : tri) : bool :=
  match t with Some true => true | _ => false end.

Definition WHERE {R} (p : R -> tri) (t : list R) : list R :=
  List.filter (fun r => holds (p r)) t.

(** CASE WHEN c1 THEN v1 ... ELSE d END: the first branch whose condition
    is TRUE. *)
Fixpoint CASE {V} (branches : list (tri * V)) (default : V) : V :=
  match branches with
  | [] => default
  | (c, v) :: rest => if holds c then v else CASE rest default
  end.

(** [x IN (v1, ..., vn)] and [x IN (SELECT ...)]: FALSE on an empty right
    side; otherwise NULL for a NULL [x]; TRUE when some value equals [x];
    NULL when none does and the right side holds a NULL; FALSE otherwise. *)
Definition IN {A} `{EqDecision A} (x : option A) (vs : list (option A)) : tri :=
  match vs with
  | [] => Some false
  | _ :: _ =>
    match x with
    | None => None
    | Some a =>
      if existsb (fun v => bool_decide (v = Some a)) vs then Some true
      else if existsb (fun v => bool_decide (v = None)) vs then None
      else Some false
    end
  end.

(** [b::INT]. *)
Definition to_INT (b : tri) : option Z :=
  (fun v : bool => if v then 1 else 0) <$> b.

(** SUM skips NULL inputs and is NULL when no input is left. *)
Definition SUM (xs : list (option Z)) : option Z :=
  fold_left
    (fun acc x =>
       match x with
       | None => acc
       | Some v => Some (match acc with None => v | Some s => s + v end)
       end)
    xs None.

(** COUNT( * ). *)
Definition COUNT {R} (t : list R) : Z := Z.of_nat (length t).

(** SELECT DISTINCT over one column; NULL is one value among the others. *)
Definition DISTINCT {A} `{EqDecision A} (xs : list A) : list A := remove_dups xs.

(** UNION (not UNION ALL) removes duplicates of the concatenation. *)
Definition UNION {A} `{EqDecision A} (xs ys : list A) : list A :=
  remove_dups (xs ++ ys).

(** GROUP BY key HAVING COUNT( * ) > 1, keeping the key and its count.  NULL
    keys form one group. *)
Definition group_size {A} `{EqDecision A} (keys : list A) (k : A) : Z :=
  COUNT (List.filter (fun k' => bool_decide (k' = k)) keys).

Definition GROUP_HAVING_MANY {A} `{EqDecision A} (keys : list A) : list (A * Z) :=
  List.filter (fun kc => snd kc >? 1)
    (List.map (fun k => (k, group_size keys k)) (remove_dups keys)).

(** LEFT JOIN: every left row with each right row on which the condition
    is TRUE, or once with no right row when there is none. *)
Definition LEFT_JOIN {L R} (on : L -> R -> tri) (ls : list L) (rs : list R)
  : list (L * option R) :=
  flat_map
    (fun l =>
       match List.filter (fun r => holds (on l r)) rs with
       | [] => [(l, None)]
       | ms => List.map (fun r => (l, Some r)) ms
       end)
    ls.

End SQL.

(** ** String functions of the engine, on byte strings *)

Module Str.

Definition is_space (c : ascii) : bool := bool_decide (c = " "%char).

(** The whitespace class of the regular expression engine (backslash s):
    tab, line feed, form feed, carriage return and space. *)
Definition is_regex_space (c : ascii) : bool :=
  let n := N_of_ascii c in
  (n =? 9)%N || (n =? 10)%N || (n =? 12)%N || (n =? 13)%N || (n =? 32)%N.

Definition is_digit (c : ascii) : bool :=
  let n := N_of_ascii c in (48 <=? n)%N && (n <=? 57)%N.

Fixpoint ltrim (s : string) : string :=
  match s with
  | String c s' => if is_space c then ltrim s' else s
  | EmptyString => EmptyString
  end.

Fixpoint rtrim (s : string) : string :=
  match s with
  | EmptyString => EmptyString
  | String c s' =>
    match rtrim s' with
    | EmptyString => if is_space c then EmptyString else String c EmptyString
    | r => String c r
    end
  end.

(** TRIM(s): spaces removed on both sides.  On byte strings the space is
    the one ASCII space; the engine also removes the other space separators
    of Unicode, which take several bytes each. *)
Definition TRIM (s : string) : string := rtrim (ltrim s).

Definition lower_ascii (c : ascii) : ascii :=
  let n := N_of_ascii c in
  if (65 <=? n)%N && (n <=? 90)%N then ascii_of_N (n + 32) else c.

(** LOWER(s), on the ASCII letters; other bytes are kept. *)
Fixpoint LOWER (s : string) : string :=
  match s with
  | EmptyString => EmptyString
  | String c s' => String (lower_ascii c) (LOWER s')
  end.

Fixpoint skip_regex_space (s : string) : string :=
  match s with
  | String c s' => if is_regex_space c then skip_regex_space s' else s
  | EmptyString => EmptyString
  end.

(** REGEXP_REPLACE(s, '\s+', '') with no option string: the leftmost match
    of the pattern, a maximal run of whitespace, is replaced and the rest of
    [s] is copied.  (A global replacement needs the option 'g', which the
    source does not pass.) *)
Fixpoint REGEXP_REPLACE_space_run (s : string) : string :=
  match s with
  | EmptyString => EmptyString
  | String c s' =>
    if is_regex_space c then skip_regex_space s'
    else String c (REGEXP_REPLACE_space_run s')
  end.

Fixpoint all_digits (s : string) : bool :=
  match s with
  | EmptyString => true
  | String c s' => is_digit c && all_digits s'
  end.

(** regexp_matches(s, '^[0-9]{5}$'). *)
Definition matches_five_digits (s : string) : bool :=
  (String.length s =? 5)%nat && all_digits s.

(** regexp_matches(s, '^APP[0-9]+$'). *)
Definition matches_APP_digits (s : string) : bool :=
  match s with
  | String "A" (String "P" (String "P" (String d ds))) => is_digit d && all_digits ds
  | _ => false
  end.

End Str.

(** ** Dates and timestamps *)

Module Date.

(** A DATE value, by its calendar fields. *)
Record t := mk { year : Z; month : Z; day : Z }.

Global Instance eq_dec : EqDecision t.
Proof. solve_decision. Defined.

Definition compare (a b : t) : comparison :=
  match year a ?= year b with
  | Eq => match month a ?= month b with
          | Eq => day a ?= day b
          | c => c
          end
  | c => c
  end.

Definition ltb (a b : t) : bool :=
  match compare a b with Lt => true | _ => false end.

Definition gtb (a b : t) : bool := ltb b a.

(** date_diff('month', a, b): the difference of the month numbers, the day of
    the month playing no part. *)
Definition date_diff_month (a b : t) : Z :=
  (year b * 12 + month b - 1) - (year a * 12 + month a - 1).

(** Days from 1970-01-01 to a calendar date, and back to its year. *)
Definition days_from_civil (d : t) : Z :=
  let y := if month d <=? 2 then year d - 1 else year d in
  let era := y / 400 in
  let yoe := y - era * 400 in
  let mp := if month d >? 2 then month d - 3 else month d + 9 in
  let doy := (153 * mp + 2) / 5 + day d - 1 in
  let doe := yoe * 365 + yoe / 4 - yoe / 100 + doy in
  era * 146097 + doe - 719468.

Definition civil_from_days (z0 : Z) : t :=
  let z := z0 + 719468 in
  let era := z / 146097 in
  let doe := z - era * 146097 in
  let yoe := (doe - doe / 1460 + doe / 36524 - doe / 146096) / 365 in
  let doy := doe - (365 * yoe + yoe / 4 - yoe / 100) in
  let mp := (5 * doy + 2) / 153 in
  let d := doy - (153 * mp + 2) / 5 + 1 in
  let m := if mp <? 10 then mp + 3 else mp - 9 in
  mk (yoe + era * 400 + (if m <=? 2 then 1 else 0)) m d.

(** 0 is Sunday; 1970-01-01 was a Thursday. *)
Definition weekday (days : Z) : Z := (days + 4) mod 7.

(** The last Sunday of a month of 31 days, in days from 1970-01-01. *)
Definition last_sunday (y m : Z) : Z :=
  let d31 := days_from_civil (mk y m 31) in
  d31 - weekday d31.

End Date.

Module Timestamp.

(** A TIMESTAMP: microseconds from 1970-01-01 00:00:00.  A TIMESTAMP WITH
    TIME ZONE counts them in UTC, a plain TIMESTAMP on a wall clock. *)
Definition t : Type := Z.

Definition second : Z := 1000000.
Definition hour : Z := 3600 * second.
Definition day : Z := 24 * hour.

(** date_trunc('second', ts). *)
Definition date_trunc_second (ts : t) : t := ts / second * second.

(** The offset of Europe/Berlin from UTC under the rule in force since
    1996: two hours from 01:00 UTC on the last Sunday of March to 01:00 UTC
    on the last Sunday of October, one hour otherwise. *)
Definition berlin_utc_offset (utc : t) : Z :=
  let y := Date.year (Date.civil_from_days (utc / day)) in
  let summer_from := Date.last_sunday y 3 * day + hour in
  let summer_to := Date.last_sunday y 10 * day + hour in
  if (summer_from <=? utc) && (utc <? summer_to) then 2 * hour else hour.

(** [ts AT TIME ZONE 'Europe/Berlin'], for [ts] a TIMESTAMP WITH TIME ZONE:
    the wall clock of Berlin at that instant, as a plain TIMESTAMP. *)
Definition AT_TIME_ZONE_Europe_Berlin (utc : t) : t := utc + berlin_utc_offset utc.

End Timestamp.

(** ** The engine's conversions

    TRY_CAST from text and the DOUBLE type belong to DuckDB, not to the
    pipeline.  The pipeline is modelled over any implementation of them. *)

Class Engine := {
  DOUBLE : Type;
  (** [x <= 0] and [x < 0] on a DOUBLE. *)
  DOUBLE_le_0 : DOUBLE -> bool;
  DOUBLE_lt_0 : DOUBLE -> bool;
  DOUBLE_div : DOUBLE -> DOUBLE -> DOUBLE;
  TRY_CAST_DOUBLE : string -> option DOUBLE;
  TRY_CAST_INTEGER : string -> option Z;
  TRY_CAST_DATE : string -> option Date.t;
}.

(** TRY_CAST(x AS type) on a nullable text column: NULL stays NULL. *)
Definition TRY_CAST {A} (conv : string -> option A) (x : option string) : option A :=
  x ≫= conv.

(** ** The clock

    CURRENT_TIMESTAMP is the start time of the transaction of the statement
    that reads it, and every [con.execute] of the program is a transaction
    of its own.  The readings the program takes are inputs of the model, one
    per reading statement, in program order. *)

Record clock := {
  (** line 33: [datetime.now(timezone.utc)], kept in the Python variable
      [processed_at], which no statement is given *)
  python_processed_at : Timestamp.t;
  (** line 202: CURRENT_TIMESTAMP of CREATE TABLE cleaned_applications *)
  now_cleaned_applications : Timestamp.t;
  (** line 327: CURRENT_TIMESTAMP of CREATE TABLE lms_cleaned *)
  now_lms_cleaned : Timestamp.t;
  (** line 378: CURRENT_DATE of CREATE TABLE loan_portfolio *)
  today_loan_portfolio : Date.t;
  (** line 487: CURRENT_TIMESTAMP of CREATE TABLE data_quality_report *)
  now_data_quality_report : Timestamp.t;
}.

(** date_trunc('second', CURRENT_TIMESTAMP AT TIME ZONE 'Europe/Berlin') *)
Definition processed_at_expr (current_timestamp : Timestamp.t) : Timestamp.t :=
  Timestamp.date_trunc_second (Timestamp.AT_TIME_ZONE_Europe_Berlin current_timestamp).

(** ** Raw application rows and the quarantine (lines 89-113) *)

Module RawApplications.

(** A row of raw_applications: twelve named columns read as text, and the
    overflow column the reader names column12. *)
Record row := {
  application_id : option string;
  customer_email : option string;
  installer_partner_id : option string;
  installation_type : option string;
  system_size_kwp : option string;
  loan_amount_eur : option string;
  loan_term_months : option string;
  application_date : option string;
  credit_score : option string;
  annual_income_eur : option string;
  postal_code : option string;
  status : option string;
  column12 : option string;
}.

End RawApplications.

Module GoodApplications.

Record row := {
  application_id : option string;
  customer_email : option string;
  installer_partner_id : option string;
  installation_type : option string;
  system_size_kwp : option string;
  loan_amount_eur : option string;
  loan_term_months : option string;
  application_date : option string;
  credit_score : option string;
  annual_income_eur : option string;
  postal_code : option string;
  status : option string;
}.

(** The SELECT list of raw_applications_good. *)
Definition select (r : RawApplications.row) : row := {|
  application_id := RawApplications.application_id r;
  customer_email := RawApplications.customer_email r;
  installer_partner_id := RawApplications.installer_partner_id r;
  installation_type := RawApplications.installation_type r;
  system_size_kwp := RawApplications.system_size_kwp r;
  loan_amount_eur := RawApplications.loan_amount_eur r;
  loan_term_months := RawApplications.loan_term_months r;
  application_date := RawApplications.application_date r;
  credit_score := RawApplications.credit_score r;
  annual_income_eur := RawApplications.annual_income_eur r;
  postal_code := RawApplications.postal_code r;
  status := RawApplications.status r;
|}.

End GoodApplications.

Definition str_eq (a b : string) : bool := bool_decide (a = b).
Definition str_neq (a b : string) : bool := negb (str_eq a b).

(** WHERE column12 IS NOT NULL AND TRIM(column12) <> '' *)
Definition raw_applications_bad_where (r : RawApplications.row) : SQL.tri :=
  SQL.AND (SQL.IS_NOT_NULL (RawApplications.column12 r))
          (SQL.cmp str_neq (Str.TRIM <$> RawApplications.column12 r) (Some EmptyString)).

(** WHERE column12 IS NULL OR TRIM(column12) = '' *)
Definition raw_applications_good_where (r : RawApplications.row) : SQL.tri :=
  SQL.OR (SQL.IS_NULL (RawApplications.column12 r))
         (SQL.cmp str_eq (Str.TRIM <$> RawApplications.column12 r) (Some EmptyString)).

Definition raw_applications_bad (raw_applications : list RawApplications.row)
  : list RawApplications.row :=
  SQL.WHERE raw_applications_bad_where raw_applications.

Definition raw_applications_good (raw_applications : list RawApplications.row)
  : list GoodApplications.row :=
  List.map GoodApplications.select (SQL.WHERE raw_applications_good_where raw_applications).

(** app_dupes (lines 117-124): the application_id column of the groups of
    raw_applications_good that hold more than one row. *)
Definition app_dupes (good : list GoodApplications.row) : list (option string * Z) :=
  SQL.GROUP_HAVING_MANY (List.map GoodApplications.application_id good).

(** ** cleaned_applications (lines 128-205) *)

(** The Python tuple INSTALLATION_TYPES, spliced into the statement. *)
Definition INSTALLATION_TYPES : list string := ["solar_pv"; "solar_battery"; "heat_pump"].

(** [x BETWEEN lo AND hi] on integers. *)
Definition BETWEEN (x : option Z) (lo hi : Z) : SQL.tri :=
  SQL.AND (SQL.cmp Z.geb x (Some lo)) (SQL.cmp Z.leb x (Some hi)).

(** The CASE expression of risk_category (lines 164-171). *)
Definition risk_category_expr (credit_score : option Z) : string :=
  SQL.CASE
    [ (SQL.IS_NULL credit_score, "Unknown");
      (SQL.OR (SQL.cmp Z.ltb credit_score (Some 300))
              (SQL.cmp Z.gtb credit_score (Some 850)), "Invalid");
      (SQL.cmp Z.geb credit_score (Some 750), "Excellent");
      (BETWEEN credit_score 700 749, "Good");
      (BETWEEN credit_score 650 699, "Fair") ]
    "Poor".

Module CleanedApplications.
Section with_engine.
Context `{Engine}.

(** The CTE typed. *)
Record typed := {
  application_id : option string;
  customer_email : option string;
  installer_partner_id : option string;
  installation_type : option string;
  system_size_kwp : option DOUBLE;
  loan_amount_eur : option DOUBLE;
  loan_term_months : option Z;
  application_date : option Date.t;
  credit_score : option Z;
  annual_income_eur : option DOUBLE;
  postal_code : option string;
  status : option string;
}.

Definition select_typed (g : GoodApplications.row) : typed := {|
  application_id := GoodApplications.application_id g;
  customer_email :=
    Str.REGEXP_REPLACE_space_run <$> (Str.LOWER <$> GoodApplications.customer_email g);
  installer_partner_id := GoodApplications.installer_partner_id g;
  installation_type := GoodApplications.installation_type g;
  system_size_kwp := TRY_CAST TRY_CAST_DOUBLE (GoodApplications.system_size_kwp g);
  loan_amount_eur := TRY_CAST TRY_CAST_DOUBLE (GoodApplications.loan_amount_eur g);
  loan_term_months := TRY_CAST TRY_CAST_INTEGER (GoodApplications.loan_term_months g);
  application_date := TRY_CAST TRY_CAST_DATE (GoodApplications.application_date g);
  credit_score := TRY_CAST TRY_CAST_INTEGER (GoodApplications.credit_score g);
  annual_income_eur := TRY_CAST TRY_CAST_DOUBLE (GoodApplications.annual_income_eur g);
  postal_code := GoodApplications.postal_code g;
  status := Str.LOWER <$> GoodApplications.status g;
|}.

(** The nine flag columns the CTE base adds. *)
Record flags := {
  flag_application_id_null : SQL.tri;
  flag_application_id_duplicate : SQL.tri;
  flag_loan_amount_non_positive : SQL.tri;
  flag_credit_score_missing : SQL.tri;
  flag_credit_score_out_of_range : SQL.tri;
  flag_postal_code_invalid : SQL.tri;
  flag_installation_type_invalid : SQL.tri;
  flag_system_size_invalid : SQL.tri;
  flag_system_size_present_for_heat_pump : SQL.tri;
}.

Definition select_flags (dupes : list (option string * Z)) (t : typed) : flags := {|
  flag_application_id_null :=
    SQL.OR (SQL.IS_NULL (application_id t))
           (SQL.cmp str_eq (Str.TRIM <$> application_id t) (Some EmptyString));
  flag_application_id_duplicate :=
    SQL.IN (application_id t) (List.map fst dupes);
  flag_loan_amount_non_positive :=
    SQL.OR (SQL.IS_NULL (loan_amount_eur t)) (DOUBLE_le_0 <$> loan_amount_eur t);
  flag_credit_score_missing := SQL.IS_NULL (credit_score t);
  flag_credit_score_out_of_range :=
    SQL.AND (SQL.IS_NOT_NULL (credit_score t))
            (SQL.OR (SQL.cmp Z.ltb (credit_score t) (Some 300))
                    (SQL.cmp Z.gtb (credit_score t) (Some 850)));
  flag_postal_code_invalid :=
    SQL.OR (SQL.IS_NULL (postal_code t))
           (SQL.NOT (Str.matches_five_digits <$> postal_code t));
  flag_installation_type_invalid :=
    SQL.OR (SQL.IS_NULL (installation_type t))
           (SQL.NOT (SQL.IN (installation_type t) (List.map Some INSTALLATION_TYPES)));
  flag_system_size_invalid :=
    SQL.AND (SQL.IN (installation_type t) [Some "solar_pv"; Some "solar_battery"])
            (SQL.OR (SQL.IS_NULL (system_size_kwp t)) (DOUBLE_le_0 <$> system_size_kwp t));
  flag_system_size_present_for_heat_pump :=
    SQL.AND (SQL.cmp str_eq (installation_type t) (Some "heat_pump"))
            (SQL.IS_NOT_NULL (system_size_kwp t));
|}.

(** A row of cleaned_applications: the typed columns, the flags, and the
    derived columns of the final SELECT. *)
Record row := {
  cols : typed;
  flag : flags;
  risk_category : string;
  loan_to_income_ratio : option DOUBLE;
  data_quality_flags : list (string * SQL.tri);
  processed_at : Timestamp.t;
}.

Definition loan_to_income_ratio_expr (t : typed) (f : flags) : option DOUBLE :=
  SQL.CASE
    [ (SQL.OR (SQL.OR (SQL.IS_NULL (annual_income_eur t))
                      (DOUBLE_le_0 <$> annual_income_eur t))
              (flag_loan_amount_non_positive f), None) ]
    (match loan_amount_eur t, annual_income_eur t with
     | Some l, Some i => Some (DOUBLE_div l i)
     | _, _ => None
     end).

Definition data_quality_flags_expr (f : flags) : list (string * SQL.tri) :=
  [ ("application_id_null", flag_application_id_null f);
    ("application_id_duplicate", flag_application_id_duplicate f);
    ("loan_amount_non_positive", flag_loan_amount_non_positive f);
    ("credit_score_missing", flag_credit_score_missing f);
    ("credit_score_out_of_range", flag_credit_score_out_of_range f);
    ("postal_code_invalid", flag_postal_code_invalid f);
    ("installation_type_invalid", flag_installation_type_invalid f);
    ("system_size_invalid", flag_system_size_invalid f);
    ("system_size_present_for_heat_pump", flag_system_size_present_for_heat_pump f) ].

Definition select (current_timestamp : Timestamp.t) (dupes : list (option string * Z))
  (g : GoodApplications.row) : row :=
  let t := select_typed g in
  let f := select_flags dupes t in
  {| cols := t;
     flag := f;
     risk_category := risk_category_expr (credit_score t);
     loan_to_income_ratio := loan_to_income_ratio_expr t f;
     data_quality_flags := data_quality_flags_expr f;
     processed_at := processed_at_expr current_timestamp |}.

End with_engine.
End CleanedApplications.

(** CREATE TABLE cleaned_applications, from raw_applications_good and
    app_dupes as they stand when the statement runs. *)
Definition cleaned_applications `{Engine} (current_timestamp : Timestamp.t)
  (good : list GoodApplications.row) : list CleanedApplications.row :=
  List.map (CleanedApplications.select current_timestamp (app_dupes good)) good.

(** ** lms_cleaned (lines 212-330) *)

Module RawLms.

Record row := {
  loan_id : option string;
  application_id : option string;
  disbursement_date : option string;
  current_balance_eur : option string;
  days_past_due : option string;
  payment_status : option string;
  last_payment_date : option string;
  next_payment_due : option string;
}.

End RawLms.

(** WHERE k IS NOT NULL AND TRIM(k) <> '', the filter of both duplicate
    tables of the LMS feed. *)
Definition not_blank_where (k : option string) : SQL.tri :=
  SQL.AND (SQL.IS_NOT_NULL k) (SQL.cmp str_neq (Str.TRIM <$> k) (Some EmptyString)).

Definition lms_loan_id_dupes (raw_lms : list RawLms.row) : list (option string) :=
  List.map fst
    (SQL.GROUP_HAVING_MANY
       (List.map RawLms.loan_id
          (SQL.WHERE (fun r => not_blank_where (RawLms.loan_id r)) raw_lms))).

Definition lms_app_id_dupes (raw_lms : list RawLms.row) : list (option string) :=
  List.map fst
    (SQL.GROUP_HAVING_MANY
       (List.map RawLms.application_id
          (SQL.WHERE (fun r => not_blank_where (RawLms.application_id r)) raw_lms))).

(** The CASE expression of delinquency_bucket in lms_cleaned (lines 293-299). *)
Definition delinquency_bucket_expr (days_past_due : option Z) : option string :=
  SQL.CASE
    [ (SQL.IS_NULL days_past_due, None);
      (SQL.cmp Z.eqb days_past_due (Some 0), Some "Current");
      (BETWEEN days_past_due 1 30, Some "Late");
      (BETWEEN days_past_due 31 90, Some "Delinquent") ]
    (Some "Default").

Module LmsCleaned.
Section with_engine.
Context `{Engine}.

(** The CTE lms_typed. *)
Record typed := {
  loan_id : option string;
  application_id : option string;
  disbursement_date : option Date.t;
  current_balance_eur : option DOUBLE;
  days_past_due : option Z;
  payment_status : option string;
  last_payment_date : option Date.t;
  next_payment_due : option Date.t;
}.

Definition select_typed (r : RawLms.row) : typed := {|
  loan_id := RawLms.loan_id r;
  application_id := RawLms.application_id r;
  disbursement_date := TRY_CAST TRY_CAST_DATE (RawLms.disbursement_date r);
  current_balance_eur := TRY_CAST TRY_CAST_DOUBLE (RawLms.current_balance_eur r);
  days_past_due := TRY_CAST TRY_CAST_INTEGER (RawLms.days_past_due r);
  payment_status := Str.LOWER <$> RawLms.payment_status r;
  last_payment_date := TRY_CAST TRY_CAST_DATE (RawLms.last_payment_date r);
  next_payment_due := TRY_CAST TRY_CAST_DATE (RawLms.next_payment_due r);
|}.

(** The ten flag columns the CTE base adds. *)
Record flags := {
  flag_loan_id_null : SQL.tri;
  flag_application_id_null : SQL.tri;
  flag_application_id_invalid_format : SQL.tri;
  flag_loan_id_duplicate : SQL.tri;
  flag_application_id_duplicate : SQL.tri;
  flag_current_balance_negative : SQL.tri;
  flag_days_past_due_negative : SQL.tri;
  flag_last_payment_before_disbursement : SQL.tri;
  flag_next_due_before_disbursement : SQL.tri;
  flag_last_payment_after_next_due : SQL.tri;
}.

Definition select_flags (loan_dupes app_dupes : list (option string)) (t : typed) : flags := {|
  flag_loan_id_null :=
    SQL.OR (SQL.IS_NULL (loan_id t))
           (SQL.cmp str_eq (Str.TRIM <$> loan_id t) (Some EmptyString));
  flag_application_id_null :=
    SQL.OR (SQL.IS_NULL (application_id t))
           (SQL.cmp str_eq (Str.TRIM <$> application_id t) (Some EmptyString));
  flag_application_id_invalid_format :=
    SQL.AND (SQL.IS_NOT_NULL (application_id t))
            (SQL.NOT (Str.matches_APP_digits <$> application_id t));
  flag_loan_id_duplicate := SQL.IN (loan_id t) loan_dupes;
  flag_application_id_duplicate := SQL.IN (application_id t) app_dupes;
  flag_current_balance_negative :=
    SQL.AND (SQL.IS_NOT_NULL (current_balance_eur t))
            (DOUBLE_lt_0 <$> current_balance_eur t);
  flag_days_past_due_negative :=
    SQL.AND (SQL.IS_NOT_NULL (days_past_due t))
            (SQL.cmp Z.ltb (days_past_due t) (Some 0));
  flag_last_payment_before_disbursement :=
    SQL.AND (SQL.AND (SQL.IS_NOT_NULL (last_payment_date t))
                     (SQL.IS_NOT_NULL (disbursement_date t)))
            (SQL.cmp Date.ltb (last_payment_date t) (disbursement_date t));
  flag_next_due_before_disbursement :=
    SQL.AND (SQL.AND (SQL.IS_NOT_NULL (next_payment_due t))
                     (SQL.IS_NOT_NULL (disbursement_date t)))
            (SQL.cmp Date.ltb (next_payment_due t) (disbursement_date t));
  flag_last_payment_after_next_due :=
    SQL.AND (SQL.AND (SQL.IS_NOT_NULL (last_payment_date t))
                     (SQL.IS_NOT_NULL (next_payment_due t)))
            (SQL.cmp Date.gtb (last_payment_date t) (next_payment_due t));
|}.

Record row := {
  cols : typed;
  flag : flags;
  delinquency_bucket : option string;
  data_quality_flags : list (string * SQL.tri);
  processed_at : Timestamp.t;
}.

Definition data_quality_flags_expr (f : flags) : list (string * SQL.tri) :=
  [ ("loan_id_null", flag_loan_id_null f);
    ("application_id_null", flag_application_id_null f);
    ("application_id_invalid_format", flag_application_id_invalid_format f);
    ("loan_id_duplicate", flag_loan_id_duplicate f);
    ("application_id_duplicate", flag_application_id_duplicate f);
    ("current_balance_negative", flag_current_balance_negative f);
    ("days_past_due_negative", flag_days_past_due_negative f);
    ("last_payment_before_disbursement", flag_last_payment_before_disbursement f);
    ("next_due_before_disbursement", flag_next_due_before_disbursement f);
    ("last_payment_after_next_due", flag_last_payment_after_next_due f) ].

Definition select (current_timestamp : Timestamp.t)
  (loan_dupes app_dupes : list (option string)) (r : RawLms.row) : row :=
  let t := select_typed r in
  let f := select_flags loan_dupes app_dupes t in
  {| cols := t;
     flag := f;
     delinquency_bucket := delinquency_bucket_expr (days_past_due t);
     data_quality_flags := data_quality_flags_expr f;
     processed_at := processed_at_expr current_timestamp |}.

End with_engine.
End LmsCleaned.

Definition lms_cleaned `{Engine} (current_timestamp : Timestamp.t)
  (raw_lms : list RawLms.row) : list LmsCleaned.row :=
  List.map
    (LmsCleaned.select current_timestamp (lms_loan_id_dupes raw_lms) (lms_app_id_dupes raw_lms))
    raw_lms.

(** approved_applications (lines 232-237); no later statement reads it. *)
Definition approved_applications `{Engine} (cleaned : list CleanedApplications.row)
  : list (option string) :=
  List.map (fun a => CleanedApplications.application_id (CleanedApplications.cols a))
    (SQL.WHERE
       (fun a => SQL.cmp str_eq (CleanedApplications.status (CleanedApplications.cols a))
                         (Some "approved"))
       cleaned).

(** ** loan_portfolio (lines 338-384) *)

(** The CASE expression of delinquency_bucket in loan_portfolio (lines
    368-374), written out a second time in the source. *)
Definition portfolio_delinquency_bucket_expr (l_days_past_due : option Z) : option string :=
  SQL.CASE
    [ (SQL.IS_NULL l_days_past_due, None);
      (SQL.cmp Z.eqb l_days_past_due (Some 0), Some "Current");
      (BETWEEN l_days_past_due 1 30, Some "Late");
      (BETWEEN l_days_past_due 31 90, Some "Delinquent") ]
    (Some "Default").

(** The CASE expression of months_since_disbursement (lines 376-379). *)
Definition months_since_disbursement_expr (l_disbursement_date : option Date.t)
  (current_date : Date.t) : option Z :=
  SQL.CASE
    [ (SQL.IS_NULL l_disbursement_date, None) ]
    ((fun d => Date.date_diff_month d current_date) <$> l_disbursement_date).

Module LoanPortfolio.
Section with_engine.
Context `{Engine}.

Record row := {
  (** a.* *)
  a : CleanedApplications.row;
  loan_id : option string;
  lms_application_id : option string;
  disbursement_date : option Date.t;
  current_balance_eur : option DOUBLE;
  days_past_due : option Z;
  payment_status : option string;
  last_payment_date : option Date.t;
  next_payment_due : option Date.t;
  flag_loan_id_null : SQL.tri;
  flag_application_id_null : SQL.tri;
  flag_application_id_invalid_format : SQL.tri;
  flag_current_balance_negative : SQL.tri;
  flag_days_past_due_negative : SQL.tri;
  flag_last_payment_before_disbursement : SQL.tri;
  flag_next_due_before_disbursement : SQL.tri;
  flag_last_payment_after_next_due : SQL.tri;
  lms_data_quality_flags : option (list (string * SQL.tri));
  lms_processed_at : option Timestamp.t;
  delinquency_bucket : option string;
  months_since_disbursement : option Z;
}.

(** ON a.application_id = l.application_id *)
Definition on (x : CleanedApplications.row) (l : LmsCleaned.row) : SQL.tri :=
  SQL.cmp str_eq (CleanedApplications.application_id (CleanedApplications.cols x))
                 (LmsCleaned.application_id (LmsCleaned.cols l)).

(** A column [l.c] of the right side of the join: NULL on a left row that
    found no match. *)
Definition l_col {A} (l : option LmsCleaned.row) (c : LmsCleaned.typed -> option A) : option A :=
  l ≫= fun r => c (LmsCleaned.cols r).

Definition l_flag (l : option LmsCleaned.row) (c : LmsCleaned.flags -> SQL.tri) : SQL.tri :=
  l ≫= fun r => c (LmsCleaned.flag r).

Definition select (current_date : Date.t)
  (al : CleanedApplications.row * option LmsCleaned.row) : row :=
  let l := snd al in
  {| a := fst al;
     loan_id := l_col l LmsCleaned.loan_id;
     lms_application_id := l_col l LmsCleaned.application_id;
     disbursement_date := l_col l LmsCleaned.disbursement_date;
     current_balance_eur := l_col l LmsCleaned.current_balance_eur;
     days_past_due := l_col l LmsCleaned.days_past_due;
     payment_status := l_col l LmsCleaned.payment_status;
     last_payment_date := l_col l LmsCleaned.last_payment_date;
     next_payment_due := l_col l LmsCleaned.next_payment_due;
     flag_loan_id_null := l_flag l LmsCleaned.flag_loan_id_null;
     flag_application_id_null := l_flag l LmsCleaned.flag_application_id_null;
     flag_application_id_invalid_format := l_flag l LmsCleaned.flag_application_id_invalid_format;
     flag_current_balance_negative := l_flag l LmsCleaned.flag_current_balance_negative;
     flag_days_past_due_negative := l_flag l LmsCleaned.flag_days_past_due_negative;
     flag_last_payment_before_disbursement :=
       l_flag l LmsCleaned.flag_last_payment_before_disbursement;
     flag_next_due_before_disbursement := l_flag l LmsCleaned.flag_next_due_before_disbursement;
     flag_last_payment_after_next_due := l_flag l LmsCleaned.flag_last_payment_after_next_due;
     lms_data_quality_flags := LmsCleaned.data_quality_flags <$> l;
     lms_processed_at := LmsCleaned.processed_at <$> l;
     delinquency_bucket :=
       portfolio_delinquency_bucket_expr (l_col l LmsCleaned.days_past_due);
     months_since_disbursement :=
       months_since_disbursement_expr (l_col l LmsCleaned.disbursement_date) current_date |}.

End with_engine.
End LoanPortfolio.

Definition loan_portfolio `{Engine} (current_date : Date.t)
  (cleaned : list CleanedApplications.row) (lms : list LmsCleaned.row)
  : list LoanPortfolio.row :=
  List.map (LoanPortfolio.select current_date) (SQL.LEFT_JOIN LoanPortfolio.on cleaned lms).

(** ** data_quality_report (lines 390-492) *)

(** ORDER BY on a VARCHAR column, ascending: bytes compared in order, a
    prefix before its extensions, NULL after every string. *)
Definition varchar_le (x y : option string) : Prop :=
  match x, y with
  | Some s1, Some s2 => String.le s1 s2
  | _, None => True
  | None, Some _ => False
  end.

Global Instance varchar_le_dec : RelDecision varchar_le.
Proof. intros [s1|] [s2|]; simpl; apply _. Defined.

(** array_agg(x ORDER BY x): NULL over no row; a NULL [x] is kept. *)
Definition ARRAY_AGG_ORDER_BY (xs : list (option string)) : option (list (option string)) :=
  match xs with
  | [] => None
  | _ :: _ => Some (merge_sort varchar_le xs)
  end.

(** SUM(flag::INT) over a table. *)
Definition SUM_flag {R} (flag : R -> SQL.tri) (t : list R) : option Z :=
  SQL.SUM (List.map (fun r => SQL.to_INT (flag r)) t).

Module DataQualityReport.

Record row := {
  applications_processed : Z;
  quarantined_applications : Z;
  lms_processed : Z;
  app_application_id_null : option Z;
  app_application_id_duplicate : option Z;
  app_loan_amount_non_positive : option Z;
  app_credit_score_missing : option Z;
  app_credit_score_out_of_range : option Z;
  app_postal_code_invalid : option Z;
  app_installation_type_invalid : option Z;
  app_system_size_invalid : option Z;
  app_system_size_present_for_heat_pump : option Z;
  lms_loan_id_null : option Z;
  lms_application_id_null : option Z;
  lms_application_id_invalid_format : option Z;
  lms_loan_id_duplicate : option Z;
  lms_application_id_duplicate : option Z;
  lms_current_balance_negative : option Z;
  lms_days_past_due_negative : option Z;
  lms_last_payment_before_disbursement : option Z;
  lms_next_due_before_disbursement : option Z;
  lms_last_payment_after_next_due : option Z;
  problematic_application_ids : option (list (option string));
  processed_at : Timestamp.t;
}.

End DataQualityReport.

Section report.
Context `{Engine}.

Definition app_flag (c : CleanedApplications.flags -> SQL.tri)
  (r : CleanedApplications.row) : SQL.tri :=
  c (CleanedApplications.flag r).

Definition lms_flag (c : LmsCleaned.flags -> SQL.tri) (r : LmsCleaned.row) : SQL.tri :=
  c (LmsCleaned.flag r).

(** The WHERE of the first branch of problematic_ids (lines 429-438). *)
Definition problematic_app_where (r : CleanedApplications.row) : SQL.tri :=
  let f := CleanedApplications.flag r in
  SQL.OR (SQL.OR (SQL.OR (SQL.OR (SQL.OR (SQL.OR (SQL.OR (SQL.OR
    (CleanedApplications.flag_application_id_null f)
    (CleanedApplications.flag_application_id_duplicate f))
    (CleanedApplications.flag_loan_amount_non_positive f))
    (CleanedApplications.flag_credit_score_missing f))
    (CleanedApplications.flag_credit_score_out_of_range f))
    (CleanedApplications.flag_postal_code_invalid f))
    (CleanedApplications.flag_installation_type_invalid f))
    (CleanedApplications.flag_system_size_invalid f))
    (CleanedApplications.flag_system_size_present_for_heat_pump f).

(** The WHERE of the second branch (lines 442-452). *)
Definition problematic_lms_where (r : LmsCleaned.row) : SQL.tri :=
  let f := LmsCleaned.flag r in
  SQL.OR (SQL.OR (SQL.OR (SQL.OR (SQL.OR (SQL.OR (SQL.OR (SQL.OR (SQL.OR
    (LmsCleaned.flag_loan_id_null f)
    (LmsCleaned.flag_application_id_null f))
    (LmsCleaned.flag_application_id_invalid_format f))
    (LmsCleaned.flag_loan_id_duplicate f))
    (LmsCleaned.flag_application_id_duplicate f))
    (LmsCleaned.flag_current_balance_negative f))
    (LmsCleaned.flag_days_past_due_negative f))
    (LmsCleaned.flag_last_payment_before_disbursement f))
    (LmsCleaned.flag_next_due_before_disbursement f))
    (LmsCleaned.flag_last_payment_after_next_due f).

Definition app_id (r : CleanedApplications.row) : option string :=
  CleanedApplications.application_id (CleanedApplications.cols r).

Definition lms_app_id (r : LmsCleaned.row) : option string :=
  LmsCleaned.application_id (LmsCleaned.cols r).

(** The CTE problematic_ids. *)
Definition problematic_ids (cleaned : list CleanedApplications.row)
  (lms : list LmsCleaned.row) : list (option string) :=
  SQL.UNION
    (SQL.DISTINCT (List.map app_id (SQL.WHERE problematic_app_where cleaned)))
    (SQL.DISTINCT (List.map lms_app_id (SQL.WHERE problematic_lms_where lms))).

(** The one row of data_quality_report: each of the three CTEs of counts is
    an aggregate with no GROUP BY, hence one row, and so is their cross
    join. *)
Definition data_quality_report (current_timestamp : Timestamp.t)
  (cleaned : list CleanedApplications.row) (lms : list LmsCleaned.row)
  (bad : list RawApplications.row) : DataQualityReport.row := {|
  DataQualityReport.applications_processed := SQL.COUNT cleaned;
  DataQualityReport.quarantined_applications := SQL.COUNT bad;
  DataQualityReport.lms_processed := SQL.COUNT lms;
  DataQualityReport.app_application_id_null :=
    SUM_flag (app_flag CleanedApplications.flag_application_id_null) cleaned;
  DataQualityReport.app_application_id_duplicate :=
    SUM_flag (app_flag CleanedApplications.flag_application_id_duplicate) cleaned;
  DataQualityReport.app_loan_amount_non_positive :=
    SUM_flag (app_flag CleanedApplications.flag_loan_amount_non_positive) cleaned;
  DataQualityReport.app_credit_score_missing :=
    SUM_flag (app_flag CleanedApplications.flag_credit_score_missing) cleaned;
  DataQualityReport.app_credit_score_out_of_range :=
    SUM_flag (app_flag CleanedApplications.flag_credit_score_out_of_range) cleaned;
  DataQualityReport.app_postal_code_invalid :=
    SUM_flag (app_flag CleanedApplications.flag_postal_code_invalid) cleaned;
  DataQualityReport.app_installation_type_invalid :=
    SUM_flag (app_flag CleanedApplications.flag_installation_type_invalid) cleaned;
  DataQualityReport.app_system_size_invalid :=
    SUM_flag (app_flag CleanedApplications.flag_system_size_invalid) cleaned;
  DataQualityReport.app_system_size_present_for_heat_pump :=
    SUM_flag (app_flag CleanedApplications.flag_system_size_present_for_heat_pump) cleaned;
  DataQualityReport.lms_loan_id_null :=
    SUM_flag (lms_flag LmsCleaned.flag_loan_id_null) lms;
  DataQualityReport.lms_application_id_null :=
    SUM_flag (lms_flag LmsCleaned.flag_application_id_null) lms;
  DataQualityReport.lms_application_id_invalid_format :=
    SUM_flag (lms_flag LmsCleaned.flag_application_id_invalid_format) lms;
  DataQualityReport.lms_loan_id_duplicate :=
    SUM_flag (lms_flag LmsCleaned.flag_loan_id_duplicate) lms;
  DataQualityReport.lms_application_id_duplicate :=
    SUM_flag (lms_flag LmsCleaned.flag_application_id_duplicate) lms;
  DataQualityReport.lms_current_balance_negative :=
    SUM_flag (lms_flag LmsCleaned.flag_current_balance_negative) lms;
  DataQualityReport.lms_days_past_due_negative :=
    SUM_flag (lms_flag LmsCleaned.flag_days_past_due_negative) lms;
  DataQualityReport.lms_last_payment_before_disbursement :=
    SUM_flag (lms_flag LmsCleaned.flag_last_payment_before_disbursement) lms;
  DataQualityReport.lms_next_due_before_disbursement :=
    SUM_flag (lms_flag LmsCleaned.flag_next_due_before_disbursement) lms;
  DataQualityReport.lms_last_payment_after_next_due :=
    SUM_flag (lms_flag LmsCleaned.flag_last_payment_after_next_due) lms;
  DataQualityReport.problematic_application_ids :=
    ARRAY_AGG_ORDER_BY (problematic_ids cleaned lms);
  DataQualityReport.processed_at := processed_at_expr current_timestamp;
|}.

(** ** main: the statements in program order *)

Record tables := {
  t_raw_applications_bad : list RawApplications.row;
  t_raw_applications_good : list GoodApplications.row;
  t_cleaned_applications : list CleanedApplications.row;
  t_lms_cleaned : list LmsCleaned.row;
  t_loan_portfolio : list LoanPortfolio.row;
  t_data_quality_report : DataQualityReport.row;
}.

Definition main (clk : clock) (raw_applications : list RawApplications.row)
  (raw_lms : list RawLms.row) : tables :=
  let bad := raw_applications_bad raw_applications in
  let good := raw_applications_good raw_applications in
  let cleaned := cleaned_applications (now_cleaned_applications clk) good in
  let lms := lms_cleaned (now_lms_cleaned clk) raw_lms in
  let portfolio := loan_portfolio (today_loan_portfolio clk) cleaned lms in
  let report := data_quality_report (now_data_quality_report clk) cleaned lms bad in
  {| t_raw_applications_bad := bad;
     t_raw_applications_good := good;
     t_cleaned_applications := cleaned;
     t_lms_cleaned := lms;
     t_loan_portfolio := portfolio;
     t_data_quality_report := report |}.

End report.

(** ** An engine to run the model on concrete feeds

    It converts the plain forms only: a decimal integer with an optional
    minus sign, and a date written YYYY-MM-DD.  DOUBLE values are the
    integers among the rationals. *)

Module PlainEngine.

Definition digit_value (c : ascii) : Z := Z.of_N (N_of_ascii c) - 48.

Fixpoint digits_value (acc : Z) (s : string) : Z :=
  match s with
  | EmptyString => acc
  | String c s' => digits_value (10 * acc + digit_value c) s'
  end.

Definition natural (s : string) : option Z :=
  match s with
  | EmptyString => None
  | String _ _ => if Str.all_digits s then Some (digits_value 0 s) else None
  end.

Definition integer (s : string) : option Z :=
  match s with
  | String "-" s' => Z.opp <$> natural s'
  | _ => natural s
  end.

Definition int32 (s : string) : option Z :=
  integer s ≫= fun n =>
  if (- 2147483648 <=? n) && (n <=? 2147483647) then Some n else None.

Definition leap (y : Z) : bool :=
  ((y mod 4 =? 0) && negb (y mod 100 =? 0)) || (y mod 400 =? 0).

Definition days_in_month (y m : Z) : Z :=
  if m =? 2 then (if leap y then 29 else 28)
  else if (m =? 4) || (m =? 6) || (m =? 9) || (m =? 11) then 30 else 31.

Definition date (s : string) : option Date.t :=
  if (String.length s =? 10)%nat then
    match natural (substring 0 4 s), natural (substring 5 2 s), natural (substring 8 2 s) with
    | Some y, Some m, Some d =>
      if str_eq (substring 4 1 s) "-" && str_eq (substring 7 1 s) "-"
         && (1 <=? m) && (m <=? 12) && (1 <=? d) && (d <=? days_in_month y m)
      then Some (Date.mk y m d) else None
    | _, _, _ => None
    end
  else None.

Definition engine : Engine := {|
  DOUBLE := Q;
  DOUBLE_le_0 := fun q => Qle_bool q 0;
  DOUBLE_lt_0 := fun q => negb (Qle_bool 0 q);
  DOUBLE_div := Qdiv;
  TRY_CAST_DOUBLE := fun s => inject_Z <$> integer s;
  TRY_CAST_INTEGER := int32;
  TRY_CAST_DATE := date;
|}.

End PlainEngine.

(** ** Readings of the specification, to set beside the code *)

(** The complete months from [d1] to [d2]: a month boundary counts only
    once the day of the month of [d1] is reached again. *)
Definition complete_months (d1 d2 : Date.t) : Z :=
  let m := Date.date_diff_month d1 d2 in
  if (0 <? m) && (Date.day d2 <? Date.day d1) then m - 1
  else if (m <? 0) && (Date.day d1 <? Date.day d2) then m + 1
  else m.

(** A string holds no whitespace. *)
Fixpoint no_whitespace (s : string) : bool :=
  match s with
  | EmptyString => true
  | String c s' => negb (Str.is_regex_space c) && no_whitespace s'
  end.

(** An instant rendered in UTC, to the second. *)
Definition utc_rendered (instant : Timestamp.t) : Timestamp.t :=
  Timestamp.date_trunc_second instant.

(** The number of rows of a table on which a flag is TRUE. *)
Definition rows_flagged {R} (flag : R -> SQL.tri) (t : list R) : Z :=
  SQL.COUNT (List.filter (fun r => SQL.holds (flag r)) t).

(** A row carries at least one TRUE entry in its mapping of flags. *)
Definition some_flag_true (named_flags : list (string * SQL.tri)) : Prop :=
  exists name, In (name, Some true) named_flags.

(** Strict ascending order of the report's list: no two entries equal. *)
Definition varchar_lt (x y : option string) : Prop :=
  varchar_le x y /\ x <> y.


(** Every column of a portfolio row that comes from the LMS side is NULL,
    the two derived ones included. *)
Definition lms_columns_null `{Engine} (p : LoanPortfolio.row) : Prop :=
  LoanPortfolio.loan_id p = None /\
  LoanPortfolio.lms_application_id p = None /\
  LoanPortfolio.disbursement_date p = None /\
  LoanPortfolio.current_balance_eur p = None /\
  LoanPortfolio.days_past_due p = None /\
  LoanPortfolio.payment_status p = None /\
  LoanPortfolio.last_payment_date p = None /\
  LoanPortfolio.next_payment_due p = None /\
  LoanPortfolio.flag_loan_id_null p = None /\
  LoanPortfolio.flag_application_id_null p = None /\
  LoanPortfolio.flag_application_id_invalid_format p = None /\
  LoanPortfolio.flag_current_balance_negative p = None /\
  LoanPortfolio.flag_days_past_due_negative p = None /\
  LoanPortfolio.flag_last_payment_before_disbursement p = None /\
  LoanPortfolio.flag_next_due_before_disbursement p = None /\
  LoanPortfolio.flag_last_payment_after_next_due p = None /\
  LoanPortfolio.lms_data_quality_flags p = None /\
  LoanPortfolio.lms_processed_at p = None /\
  LoanPortfolio.delinquency_bucket p = None /\
  LoanPortfolio.months_since_disbursement p = None.


(** ** Concrete feeds *)

Module Sample.

(** A raw application row with the given id, email, credit score and
    overflow column, and plain values in the other columns. *)
Definition application (id email score overflow : option string) : RawApplications.row := {|
  RawApplications.application_id := id;
  RawApplications.customer_email := email;
  RawApplications.installer_partner_id := Some "P1";
  RawApplications.installation_type := Some "solar_pv";
  RawApplications.system_size_kwp := Some "5";
  RawApplications.loan_amount_eur := Some "10000";
  RawApplications.loan_term_months := Some "120";
  RawApplications.application_date := Some "2024-01-15";
  RawApplications.credit_score := score;
  RawApplications.annual_income_eur := Some "50000";
  RawApplications.postal_code := Some "10115";
  RawApplications.status := Some "approved";
  RawApplications.column12 := overflow;
|}.

(** The good row of such an application. *)
Definition good (id email : option string) : GoodApplications.row :=
  GoodApplications.select (application id email (Some "720") None).

(** A raw LMS row with the given ids, disbursement date and days past due. *)
Definition loan (loan_id app_id disbursed days : option string) : RawLms.row := {|
  RawLms.loan_id := loan_id;
  RawLms.application_id := app_id;
  RawLms.disbursement_date := disbursed;
  RawLms.current_balance_eur := Some "9000";
  RawLms.days_past_due := days;
  RawLms.payment_status := Some "active";
  RawLms.last_payment_date := Some "2024-02-01";
  RawLms.next_payment_due := Some "2024-03-01";
|}.

(** 2026-11-03 22:10:00 UTC, in microseconds. *)
Definition t0 : Timestamp.t := 1793743800000000.

(** A run whose statements start 0.5 s, 0.9 s, 1.2 s and 2.0 s after
    [t0]. *)
Definition clk : clock := {|
  python_processed_at := t0 + 500000;
  now_cleaned_applications := t0 + 900000;
  now_lms_cleaned := t0 + 1200000;
  today_loan_portfolio := Date.mk 2026 11 3;
  now_data_quality_report := t0 + 2000000;
|}.

End Sample.

(** A counter of the report against its flag column: the number of rows
    flagged TRUE as soon as one row has a value for the flag, and NULL when
    no row has (an empty table included). *)
Definition counts_flag {R} (counter : option Z) (flag : R -> SQL.tri) (t : list R) : Prop :=
  ((exists r, In r t /\ flag r <> None) -> counter = Some (rows_flagged flag t)) /\
  ((forall r, In r t -> flag r = None) -> counter = None).

(** An application_id value is implicated when a cleaned application or a
    cleaned LMS row with that id carries a TRUE flag. *)
Definition implicated `{Engine} (cleaned : list CleanedApplications.row)
  (lms : list LmsCleaned.row) (x : option string) : Prop :=
  (exists a, In a cleaned /\ app_id a = x /\
     some_flag_true (CleanedApplications.data_quality_flags_expr (CleanedApplications.flag a))) \/
  (exists l, In l lms /\ lms_app_id l = x /\
     some_flag_true (LmsCleaned.data_quality_flags_expr (LmsCleaned.flag l))).

(** A flag has a value, TRUE or FALSE. *)
Definition has_value (b : SQL.tri) : bool :=
  match b with Some _ => true | None => false end.





(** A counter that is present lies between 0 and [n]. *)
Definition within (counter : option Z) (n : Z) : Prop :=
  forall v, counter = Some v -> 0 <= v <= n.

(** * Properties *)

(** ** Three-valued logic *)

Lemma holds_OR a b : SQL.holds (SQL.OR a b) = SQL.holds a || SQL.holds b.
Proof. destruct a as [[|]|], b as [[|]|]; reflexivity. Qed.

Lemma holds_AND a b : SQL.holds (SQL.AND a b) = SQL.holds a && SQL.holds b.
Proof. destruct a as [[|]|], b as [[|]|]; reflexivity. Qed.

Lemma holds_true t : SQL.holds t = true <-> t = Some true.
Proof. destruct t as [[|]|]; simpl; split; congruence. Qed.

Lemma str_eq_true a b : str_eq a b = true <-> a = b.
Proof. unfold str_eq. apply bool_decide_eq_true. Qed.


Lemma BETWEEN_Some n lo hi : BETWEEN (Some n) lo hi = Some ((lo <=? n) && (n <=? hi)).
Proof.
  unfold BETWEEN; simpl. rewrite Z.geb_leb.
  destruct (lo <=? n), (n <=? hi); reflexivity.
Qed.

(** ** Tables as lists *)

Lemma WHERE_split {R} (p q : R -> SQL.tri) (t : list R) :
  (forall r, SQL.holds (q r) = negb (SQL.holds (p r))) ->
  Permutation t (SQL.WHERE p t ++ SQL.WHERE q t).
Proof.
  intros Hpq. unfold SQL.WHERE.
  induction t as [|r t IH]; simpl; [constructor|].
  rewrite (Hpq r). destruct (SQL.holds (p r)); simpl.
  - now constructor.
  - now apply Permutation_cons_app.
Qed.

Lemma COUNT_app {R} (s t : list R) : SQL.COUNT (s ++ t) = SQL.COUNT s + SQL.COUNT t.
Proof. unfold SQL.COUNT. rewrite length_app. lia. Qed.

Lemma COUNT_map {R S} (f : R -> S) (t : list R) : SQL.COUNT (List.map f t) = SQL.COUNT t.
Proof. unfold SQL.COUNT. now rewrite length_map. Qed.

(** ** The quarantine *)

Lemma bad_where_holds r :
  SQL.holds (raw_applications_bad_where r) =
  match RawApplications.column12 r with
  | Some s => str_neq (Str.TRIM s) EmptyString
  | None => false
  end.
Proof.
  unfold raw_applications_bad_where.
  destruct (RawApplications.column12 r) as [s|]; simpl; [|reflexivity].
  destruct (str_neq (Str.TRIM s) EmptyString); reflexivity.
Qed.

Lemma good_where_holds r :
  SQL.holds (raw_applications_good_where r) =
  match RawApplications.column12 r with
  | Some s => str_eq (Str.TRIM s) EmptyString
  | None => true
  end.
Proof.
  unfold raw_applications_good_where.
  destruct (RawApplications.column12 r) as [s|]; simpl; [|reflexivity].
  destruct (str_eq (Str.TRIM s) EmptyString); reflexivity.
Qed.

Lemma good_where_complement r :
  SQL.holds (raw_applications_good_where r) = negb (SQL.holds (raw_applications_bad_where r)).
Proof.
  rewrite good_where_holds, bad_where_holds.
  destruct (RawApplications.column12 r); [|reflexivity].
  unfold str_neq. now rewrite negb_involutive.
Qed.



(** ** Risk category and delinquency bucket *)

Lemma risk_category_expr_Some n :
  risk_category_expr (Some n) =
  if (n <? 300) || (850 <? n) then "Invalid"
  else if 750 <=? n then "Excellent"
  else if (700 <=? n) && (n <=? 749) then "Good"
  else if (650 <=? n) && (n <=? 699) then "Fair"
  else "Poor".
Proof.
  unfold risk_category_expr. cbn [SQL.CASE SQL.IS_NULL SQL.holds].
  rewrite holds_OR, !BETWEEN_Some. cbn [SQL.cmp SQL.holds].
  rewrite Z.gtb_ltb, Z.geb_leb.
  destruct (n <? 300), (850 <? n), (750 <=? n), (700 <=? n), (n <=? 749),
    (650 <=? n), (n <=? 699); reflexivity.
Qed.

Lemma delinquency_bucket_expr_Some n :
  delinquency_bucket_expr (Some n) =
  if n =? 0 then Some "Current"
  else if (1 <=? n) && (n <=? 30) then Some "Late"
  else if (31 <=? n) && (n <=? 90) then Some "Delinquent"
  else Some "Default".
Proof.
  unfold delinquency_bucket_expr. cbn [SQL.CASE SQL.IS_NULL SQL.holds].
  rewrite !BETWEEN_Some. cbn [SQL.cmp SQL.holds].
  destruct (n =? 0), (1 <=? n), (n <=? 30), (31 <=? n), (n <=? 90); reflexivity.
Qed.

Lemma portfolio_bucket_same days_past_due :
  portfolio_delinquency_bucket_expr days_past_due = delinquency_bucket_expr days_past_due.
Proof. reflexivity. Qed.

Ltac decide_bounds :=
  repeat match goal with
  | |- context [?a <? ?b] => destruct (Z.ltb_spec a b); try lia
  | |- context [?a <=? ?b] => destruct (Z.leb_spec a b); try lia
  | |- context [?a =? ?b] => destruct (Z.eqb_spec a b); try lia
  end;
  simpl; try reflexivity; try lia.

(** C2. The risk category of an application is a total function of its
    credit score with values among the six names: NULL gives Unknown, a
    score under 300 or over 850 gives Invalid, 750 and more gives
    Excellent, 700 to 749 Good, 650 to 699 Fair, and any other score in
    range Poor; the boundary scores 749/750, 699/700 and 649/650 fall on
    the two sides stated; and the column of every cleaned row is this
    function of the row's credit score. *)
Theorem C2_risk_category_total (credit_score : option Z) :
  In (risk_category_expr credit_score)
     ["Unknown"; "Invalid"; "Excellent"; "Good"; "Fair"; "Poor"] /\
  (credit_score = None <-> risk_category_expr credit_score = "Unknown") /\
  (forall n, credit_score = Some n ->
     (n < 300 \/ 850 < n <-> risk_category_expr credit_score = "Invalid") /\
     (750 <= n <= 850 <-> risk_category_expr credit_score = "Excellent") /\
     (700 <= n <= 749 <-> risk_category_expr credit_score = "Good") /\
     (650 <= n <= 699 <-> risk_category_expr credit_score = "Fair") /\
     (300 <= n <= 649 <-> risk_category_expr credit_score = "Poor")) /\
  (risk_category_expr (Some 749) = "Good" /\ risk_category_expr (Some 750) = "Excellent") /\
  (risk_category_expr (Some 699) = "Fair" /\ risk_category_expr (Some 700) = "Good") /\
  (risk_category_expr (Some 649) = "Poor" /\ risk_category_expr (Some 650) = "Fair") /\
  (forall (E : Engine) now dupes g,
     CleanedApplications.risk_category (CleanedApplications.select now dupes g)
     = risk_category_expr
         (CleanedApplications.credit_score
            (CleanedApplications.cols (CleanedApplications.select now dupes g)))).
Proof.
  split; [|split; [|split; [|repeat split]]].
  - destruct credit_score as [n|]; [|simpl; auto].
    rewrite risk_category_expr_Some.
    destruct ((n <? 300) || (850 <? n)), (750 <=? n), ((700 <=? n) && (n <=? 749)),
      ((650 <=? n) && (n <=? 699)); simpl; auto 7.
  - destruct credit_score as [n|]; [|split; reflexivity].
    rewrite risk_category_expr_Some. split; [discriminate|].
    destruct ((n <? 300) || (850 <? n)), (750 <=? n), ((700 <=? n) && (n <=? 749)),
      ((650 <=? n) && (n <=? 699)); discriminate.
  - intros n ->. rewrite risk_category_expr_Some.
    split; [|split; [|split; [|split]]];
      (split; [intros Hn; decide_bounds | decide_bounds; intros Hn; try discriminate; lia]).
Qed.

(** C3. The delinquency bucket of an LMS record follows days_past_due: NULL
    for NULL, Current for 0, Late for 1 to 30, Delinquent for 31 to 90 and
    Default above 90; 30 gives Late, 31 and 90 give Delinquent, 91 gives
    Default; and the column of every lms_cleaned row is this function of the
    row's days_past_due. *)
Theorem C3_delinquency_bucket (days_past_due : option Z) :
  (days_past_due = None -> delinquency_bucket_expr days_past_due = None) /\
  (forall n, days_past_due = Some n ->
     (n = 0 -> delinquency_bucket_expr days_past_due = Some "Current") /\
     (1 <= n <= 30 -> delinquency_bucket_expr days_past_due = Some "Late") /\
     (31 <= n <= 90 -> delinquency_bucket_expr days_past_due = Some "Delinquent") /\
     (90 < n -> delinquency_bucket_expr days_past_due = Some "Default")) /\
  delinquency_bucket_expr (Some 0) = Some "Current" /\
  delinquency_bucket_expr (Some 30) = Some "Late" /\
  delinquency_bucket_expr (Some 31) = Some "Delinquent" /\
  delinquency_bucket_expr (Some 90) = Some "Delinquent" /\
  delinquency_bucket_expr (Some 91) = Some "Default" /\
  (forall (E : Engine) now loan_dupes app_dupes r,
     LmsCleaned.delinquency_bucket (LmsCleaned.select now loan_dupes app_dupes r)
     = delinquency_bucket_expr
         (LmsCleaned.days_past_due
            (LmsCleaned.cols (LmsCleaned.select now loan_dupes app_dupes r)))).
Proof.
  split; [|split; [|repeat split]].
  - now intros ->.
  - intros n ->. rewrite delinquency_bucket_expr_Some.
    repeat split; intros Hn; decide_bounds.
Qed.

(** ** The join *)

Lemma in_LEFT_JOIN {L R} (on : L -> R -> SQL.tri) (ls : list L) (rs : list R) l o :
  In (l, o) (SQL.LEFT_JOIN on ls rs) <->
  In l ls /\
  match o with
  | Some r => In r rs /\ on l r = Some true
  | None => forall r, In r rs -> on l r <> Some true
  end.
Proof.
  unfold SQL.LEFT_JOIN. rewrite in_flat_map. split.
  - intros (l' & Hl' & Hin).
    destruct (List.filter (fun r => SQL.holds (on l' r)) rs) as [|m ms] eqn:Hf.
    + destruct Hin as [Heq|[]]. injection Heq as <- <-. split; [assumption|].
      intros r Hr Hon.
      assert (Hr' : In r (List.filter (fun r => SQL.holds (on l' r)) rs)).
      { apply filter_In. split; [assumption|]. now rewrite Hon. }
      rewrite Hf in Hr'. destruct Hr'.
    + apply in_map_iff in Hin as (r & Heq & Hr). injection Heq as <- <-.
      rewrite <- Hf in Hr. apply filter_In in Hr as [Hr Hon].
      split; [assumption|]. split; [assumption|]. now apply holds_true.
  - intros (Hl & Ho). exists l. split; [assumption|].
    destruct o as [r|].
    + destruct Ho as [Hr Hon].
      assert (Hr' : In r (List.filter (fun r => SQL.holds (on l r)) rs)).
      { apply filter_In. split; [assumption|]. now rewrite Hon. }
      destruct (List.filter (fun r => SQL.holds (on l r)) rs) as [|m ms] eqn:Hf;
        [destruct Hr'|].
      apply in_map_iff. exists r. now split.
    + destruct (List.filter (fun r => SQL.holds (on l r)) rs) as [|m ms] eqn:Hf;
        [now left|].
      exfalso. assert (Hm : In m (List.filter (fun r => SQL.holds (on l r)) rs)).
      { rewrite Hf. now left. }
      apply filter_In in Hm as [Hm Hon]. apply holds_true in Hon. now apply (Ho m).
Qed.

Lemma in_loan_portfolio `{Engine} today cleaned lms p :
  In p (loan_portfolio today cleaned lms) <->
  exists a o, p = LoanPortfolio.select today (a, o) /\ In a cleaned /\
    match o with
    | Some l => In l lms /\ LoanPortfolio.on a l = Some true
    | None => forall l, In l lms -> LoanPortfolio.on a l <> Some true
    end.
Proof.
  unfold loan_portfolio. rewrite in_map_iff. split.
  - intros ([a o] & Hp & Hin). apply in_LEFT_JOIN in Hin. exists a, o. now split.
  - intros (a & o & Hp & Hin). exists (a, o). split; [now symmetry|].
    now apply in_LEFT_JOIN.
Qed.


(** ** Negative days past due *)

Lemma in_lms_cleaned `{Engine} now raw_lms l :
  In l (lms_cleaned now raw_lms) ->
  exists r, In r raw_lms /\
    l = LmsCleaned.select now (lms_loan_id_dupes raw_lms) (lms_app_id_dupes raw_lms) r.
Proof.
  unfold lms_cleaned. rewrite in_map_iff. intros (r & Hl & Hr). exists r. now split.
Qed.

Lemma negative_days_row `{Engine} now loan_dupes app_dupes r n :
  n < 0 ->
  LmsCleaned.days_past_due (LmsCleaned.cols (LmsCleaned.select now loan_dupes app_dupes r))
  = Some n ->
  LmsCleaned.delinquency_bucket (LmsCleaned.select now loan_dupes app_dupes r)
  = Some "Default" /\
  LmsCleaned.flag_days_past_due_negative
    (LmsCleaned.flag (LmsCleaned.select now loan_dupes app_dupes r)) = Some true.
Proof.
  intros Hn Hd. cbn [LmsCleaned.select LmsCleaned.delinquency_bucket LmsCleaned.flag
    LmsCleaned.select_flags LmsCleaned.flag_days_past_due_negative LmsCleaned.cols] in *.
  rewrite Hd. split.
  - rewrite delinquency_bucket_expr_Some. decide_bounds.
  - simpl. destruct (Z.ltb_spec n 0); [reflexivity|lia].
Qed.

(** C10. An LMS row whose days_past_due parses to a negative integer gets
    the bucket Default, the ELSE branch of the CASE, and carries
    flag_days_past_due_negative = TRUE; a portfolio row joined to such an
    LMS row gets the bucket Default again and the same flag. *)
Theorem C10_negative_days_past_due `{Engine} (now : Timestamp.t) (today : Date.t)
  (cleaned : list CleanedApplications.row) (raw_lms : list RawLms.row) (n : Z) :
  n < 0 ->
  (forall l, In l (lms_cleaned now raw_lms) ->
     LmsCleaned.days_past_due (LmsCleaned.cols l) = Some n ->
     LmsCleaned.delinquency_bucket l = Some "Default" /\
     LmsCleaned.flag_days_past_due_negative (LmsCleaned.flag l) = Some true) /\
  (forall p, In p (loan_portfolio today cleaned (lms_cleaned now raw_lms)) ->
     LoanPortfolio.days_past_due p = Some n ->
     LoanPortfolio.delinquency_bucket p = Some "Default" /\
     LoanPortfolio.flag_days_past_due_negative p = Some true).
Proof.
  intros Hn. split.
  - intros l Hl Hd. apply in_lms_cleaned in Hl as (r & _ & ->).
    now apply negative_days_row with (n := n).
  - intros p Hp Hd. apply in_loan_portfolio in Hp as (a & o & -> & _ & Ho).
    destruct o as [l|]; [|discriminate Hd].
    destruct Ho as [Hl _]. apply in_lms_cleaned in Hl as (r & _ & ->).
    cbn [LoanPortfolio.select LoanPortfolio.days_past_due LoanPortfolio.delinquency_bucket
      LoanPortfolio.flag_days_past_due_negative LoanPortfolio.l_col LoanPortfolio.l_flag
      snd mbind option_bind] in *.
    rewrite portfolio_bucket_same.
    destruct (negative_days_row now (lms_loan_id_dupes raw_lms) (lms_app_id_dupes raw_lms)
                r n Hn Hd) as [Hb Hf].
    split; [|exact Hf].
    cbn [LmsCleaned.select LmsCleaned.delinquency_bucket] in Hb. exact Hb.
Qed.

(** C10 on one application APP1 and its loan L1, three days ahead of
    schedule in the feed (days_past_due -3). *)
Lemma C10_negative_days_past_due_witness :
  let E := PlainEngine.engine in
  let raw_lms := [Sample.loan (Some "L1") (Some "APP1") (Some "2024-01-20") (Some "-3")] in
  let good := [Sample.good (Some "APP1") (Some "a@b.de")] in
  let today := Date.mk 2026 11 3 in
  let l0 := LmsCleaned.select Sample.t0 (lms_loan_id_dupes raw_lms) (lms_app_id_dupes raw_lms)
              (Sample.loan (Some "L1") (Some "APP1") (Some "2024-01-20") (Some "-3")) in
  let a0 := CleanedApplications.select Sample.t0 (app_dupes good)
              (Sample.good (Some "APP1") (Some "a@b.de")) in
  let p0 := LoanPortfolio.select today (a0, Some l0) in
  -3 < 0 /\
  (In l0 (lms_cleaned Sample.t0 raw_lms) /\
   LmsCleaned.days_past_due (LmsCleaned.cols l0) = Some (-3)) /\
  (LmsCleaned.delinquency_bucket l0 = Some "Default" /\
   LmsCleaned.flag_days_past_due_negative (LmsCleaned.flag l0) = Some true) /\
  (In p0 (loan_portfolio today (cleaned_applications Sample.t0 good)
            (lms_cleaned Sample.t0 raw_lms)) /\
   LoanPortfolio.days_past_due p0 = Some (-3)) /\
  (LoanPortfolio.delinquency_bucket p0 = Some "Default" /\
   LoanPortfolio.flag_days_past_due_negative p0 = Some true).
Proof.
  intros E raw_lms good today l0 a0 p0.
  assert (Hneg : -3 < 0) by lia.
  assert (Hl0 : In l0 (lms_cleaned Sample.t0 raw_lms)) by (left; reflexivity).
  assert (Hd0 : LmsCleaned.days_past_due (LmsCleaned.cols l0) = Some (-3)) by reflexivity.
  assert (Hp0 : In p0 (loan_portfolio today (cleaned_applications Sample.t0 good)
                         (lms_cleaned Sample.t0 raw_lms))) by (left; reflexivity).
  assert (Hd1 : LoanPortfolio.days_past_due p0 = Some (-3)) by reflexivity.
  destruct (C10_negative_days_past_due Sample.t0 today (cleaned_applications Sample.t0 good)
              raw_lms (-3) Hneg) as [Hl Hp].
  split; [exact Hneg|].
  split; [exact (conj Hl0 Hd0)|].
  split; [exact (Hl l0 Hl0 Hd0)|].
  split; [exact (conj Hp0 Hd1)|].
  exact (Hp p0 Hp0 Hd1).
Defined.

(** ** Months since disbursement *)

(** C9, as the code has it. months_since_disbursement is NULL when
    disbursement_date is NULL, and otherwise the number of calendar-month
    boundaries between disbursement_date and the current date: twelve times
    the difference of the years plus the difference of the month numbers,
    whatever the days of the month. *)
Theorem C9_months_since_disbursement (today : Date.t) :
  months_since_disbursement_expr None today = None /\
  (forall d, months_since_disbursement_expr (Some d) today
             = Some (12 * (Date.year today - Date.year d)
                     + (Date.month today - Date.month d))) /\
  (forall (E : Engine) cleaned lms p, In p (loan_portfolio today cleaned lms) ->
     LoanPortfolio.months_since_disbursement p
     = months_since_disbursement_expr (LoanPortfolio.disbursement_date p) today).
Proof.
  split; [reflexivity|]. split.
  - intros d. unfold months_since_disbursement_expr, Date.date_diff_month. simpl.
    f_equal. lia.
  - intros E cleaned lms p Hp.
    apply in_loan_portfolio in Hp as (a & o & -> & _). reflexivity.
Qed.

(** C9 fails as stated: a loan disbursed on 2024-01-31 and seen on
    2024-02-01, one day later, has months_since_disbursement 1, and the
    number of complete months elapsed is 0. *)
Lemma C9_counterexample :
  let E := PlainEngine.engine in
  let good := [Sample.good (Some "APP1") (Some "a@b.de")] in
  let raw_lms := [Sample.loan (Some "L1") (Some "APP1") (Some "2024-01-31") (Some "0")] in
  let today := Date.mk 2024 2 1 in
  List.map (fun p => (LoanPortfolio.disbursement_date p, LoanPortfolio.months_since_disbursement p))
    (loan_portfolio today (cleaned_applications Sample.t0 good) (lms_cleaned Sample.t0 raw_lms))
  = [(Some (Date.mk 2024 1 31), Some 1)] /\
  complete_months (Date.mk 2024 1 31) today = 0.
Proof. split; reflexivity. Qed.

(** ** The e-mail address *)

(** C8 at a failing input: the address [A b C@x.com] has two runs of
    whitespace; the cleaned customer_email has lost the first one only. *)
Lemma C8_first_whitespace_run_only :
  let E := PlainEngine.engine in
  let c := CleanedApplications.select Sample.t0 []
             (Sample.good (Some "APP1") (Some "A b C@x.com")) in
  CleanedApplications.customer_email (CleanedApplications.cols c) = Some "ab c@x.com" /\
  no_whitespace "ab c@x.com" = false.
Proof. split; reflexivity. Qed.

(** ** The processing timestamp *)

(** C7 at a failing input: in a run whose statements start within two
    seconds of 2026-11-03 22:10:00 UTC, the rows of cleaned_applications
    carry 23:10:00, those of lms_cleaned 23:10:01 and the report 23:10:02,
    wall-clock times of Berlin; the UTC value of line 33, 22:10:00 to the
    second, is in none of them. *)
Lemma C7_processed_at_per_statement :
  let E := PlainEngine.engine in
  let T := main Sample.clk
             [Sample.application (Some "APP1") (Some "a@b.de") (Some "720") None]
             [Sample.loan (Some "L1") (Some "APP1") (Some "2024-01-20") (Some "0")] in
  utc_rendered (python_processed_at Sample.clk) = Sample.t0 /\
  List.map CleanedApplications.processed_at (t_cleaned_applications T)
  = [Sample.t0 + Timestamp.hour] /\
  List.map LmsCleaned.processed_at (t_lms_cleaned T)
  = [Sample.t0 + Timestamp.hour + Timestamp.second] /\
  DataQualityReport.processed_at (t_data_quality_report T)
  = Sample.t0 + Timestamp.hour + 2 * Timestamp.second.
Proof. repeat split; vm_compute; reflexivity. Qed.

(** ** Duplicate application ids *)

Lemma group_size_pos {A} `{EqDecision A} (keys : list A) (k : A) :
  0 < SQL.group_size keys k -> In k keys.
Proof.
  unfold SQL.group_size, SQL.COUNT.
  induction keys as [|x keys IH]; simpl; [lia|].
  destruct (bool_decide (x = k)) eqn:Hx.
  - intros _. left. now apply bool_decide_eq_true in Hx.
  - intros Hpos. right. now apply IH.
Qed.

Lemma in_GROUP_HAVING_MANY {A} `{EqDecision A} (keys : list A) (k : A) :
  In k (List.map fst (SQL.GROUP_HAVING_MANY keys)) <-> 1 < SQL.group_size keys k.
Proof.
  unfold SQL.GROUP_HAVING_MANY. rewrite in_map_iff. split.
  - intros ([k' c] & Hk & Hin). simpl in Hk. subst k'.
    apply filter_In in Hin as [Hin Hc]. simpl in Hc.
    apply in_map_iff in Hin as (k' & Heq & _). injection Heq as -> <-.
    now apply Z.gtb_lt in Hc.
  - intros Hgt. exists (k, SQL.group_size keys k). split; [reflexivity|].
    apply filter_In. split.
    + apply in_map_iff. exists k. split; [reflexivity|].
      apply list_elem_of_In, elem_of_remove_dups, list_elem_of_In, group_size_pos. lia.
    + simpl. now apply Z.gtb_lt.
Qed.

Lemma existsb_bool_decide {A} (x : A) `{forall v : A, Decision (v = x)} (vs : list A) :
  existsb (fun v => bool_decide (v = x)) vs = true <-> In x vs.
Proof.
  rewrite existsb_exists. split.
  - intros (v & Hv & Heq). now apply bool_decide_eq_true in Heq as ->.
  - intros Hx. exists x. split; [assumption|]. now apply bool_decide_eq_true.
Qed.

Lemma IN_Some_true {A} `{EqDecision A} (a : A) vs :
  In (Some a) vs -> SQL.IN (Some a) vs = Some true.
Proof.
  intros Hin. unfold SQL.IN. destruct vs as [|v vs]; [destruct Hin|].
  destruct (existsb (fun v0 => bool_decide (v0 = Some a)) (v :: vs)) eqn:E1; [reflexivity|].
  apply not_true_iff_false in E1. destruct E1. now apply existsb_bool_decide.
Qed.

Lemma IN_Some_false {A} `{EqDecision A} (a : A) vs :
  ~ In (Some a) vs -> ~ In None vs -> SQL.IN (Some a) vs = Some false.
Proof.
  intros Ha Hnull. unfold SQL.IN. destruct vs as [|v vs]; [reflexivity|].
  destruct (existsb (fun v0 => bool_decide (v0 = Some a)) (v :: vs)) eqn:E1.
  { now apply existsb_bool_decide in E1. }
  destruct (existsb (fun v0 => bool_decide (v0 = None)) (v :: vs)) eqn:E2.
  { now apply existsb_bool_decide in E2. }
  reflexivity.
Qed.

Lemma IN_true_inv {A} `{EqDecision A} (x : option A) vs :
  SQL.IN x vs = Some true -> exists a, x = Some a /\ In (Some a) vs.
Proof.
  unfold SQL.IN. destruct vs as [|v vs]; [discriminate|].
  destruct x as [a|]; [|discriminate].
  destruct (existsb (fun v0 => bool_decide (v0 = Some a)) (v :: vs)) eqn:E1.
  - intros _. exists a. split; [reflexivity|].
    exact (proj1 (existsb_bool_decide (Some a) (v :: vs)) E1).
  - intros Hx. destruct (existsb (fun v0 => bool_decide (v0 = None)) (v :: vs));
      discriminate Hx.
Qed.

Lemma in_cleaned_applications `{Engine} now good c :
  In c (cleaned_applications now good) ->
  exists g, In g good /\ c = CleanedApplications.select now (app_dupes good) g.
Proof.
  unfold cleaned_applications. rewrite in_map_iff. intros (g & Hc & Hg). exists g. now split.
Qed.

(** C4, as the code has it. With [ids] the application_id column of the
    good rows: a row whose id is not NULL and occurs two or more times (a
    blank id included) has flag_application_id_duplicate = TRUE, at each of
    its occurrences; a row whose id is not NULL and occurs once has the flag
    FALSE, as long as NULL does not itself occur twice or more among the
    ids; a row whose id is NULL never has the flag TRUE. *)
Theorem C4_duplicate_flag `{Engine} (now : Timestamp.t) (good : list GoodApplications.row)
  (c : CleanedApplications.row) :
  In c (cleaned_applications now good) ->
  (forall s, app_id c = Some s ->
     2 <= SQL.group_size (List.map GoodApplications.application_id good) (Some s) ->
     CleanedApplications.flag_application_id_duplicate (CleanedApplications.flag c)
     = Some true) /\
  (forall s, app_id c = Some s ->
     SQL.group_size (List.map GoodApplications.application_id good) (Some s) = 1 ->
     SQL.group_size (List.map GoodApplications.application_id good) None < 2 ->
     CleanedApplications.flag_application_id_duplicate (CleanedApplications.flag c)
     = Some false) /\
  (app_id c = None ->
     CleanedApplications.flag_application_id_duplicate (CleanedApplications.flag c)
     <> Some true).
Proof.
  intros Hc. apply in_cleaned_applications in Hc as (g & Hg & ->).
  unfold app_id, app_dupes.
  cbn [CleanedApplications.select CleanedApplications.cols CleanedApplications.flag
    CleanedApplications.select_typed CleanedApplications.application_id
    CleanedApplications.select_flags CleanedApplications.flag_application_id_duplicate].
  split; [|split].
  - intros s -> Hmany. apply IN_Some_true, in_GROUP_HAVING_MANY. lia.
  - intros s -> Hone Hnull. apply IN_Some_false.
    + rewrite in_GROUP_HAVING_MANY. lia.
    + rewrite in_GROUP_HAVING_MANY. lia.
  - intros -> Htrue. apply IN_true_inv in Htrue as (a & Ha & _). discriminate.
Qed.

(** C4 on three good rows: APP1 twice and APP2 once. *)
Lemma C4_duplicate_flag_witness :
  let E := PlainEngine.engine in
  let good := [Sample.good (Some "APP1") (Some "a@b.de");
               Sample.good (Some "APP2") (Some "c@d.de");
               Sample.good (Some "APP1") (Some "e@f.de")] in
  let ids := List.map GoodApplications.application_id good in
  let c1 := CleanedApplications.select Sample.t0 (app_dupes good)
              (Sample.good (Some "APP1") (Some "a@b.de")) in
  let c2 := CleanedApplications.select Sample.t0 (app_dupes good)
              (Sample.good (Some "APP2") (Some "c@d.de")) in
  (In c1 (cleaned_applications Sample.t0 good) /\ app_id c1 = Some "APP1" /\
   2 <= SQL.group_size ids (Some "APP1")) /\
  CleanedApplications.flag_application_id_duplicate (CleanedApplications.flag c1) = Some true /\
  (In c2 (cleaned_applications Sample.t0 good) /\ app_id c2 = Some "APP2" /\
   SQL.group_size ids (Some "APP2") = 1 /\ SQL.group_size ids None < 2) /\
  CleanedApplications.flag_application_id_duplicate (CleanedApplications.flag c2) = Some false.
Proof.
  intros E good ids c1 c2.
  assert (H1 : In c1 (cleaned_applications Sample.t0 good)) by (left; reflexivity).
  assert (H2 : In c2 (cleaned_applications Sample.t0 good)) by (right; left; reflexivity).
  assert (Hmany : 2 <= SQL.group_size ids (Some "APP1")) by (vm_compute; discriminate).
  assert (Hone : SQL.group_size ids (Some "APP2") = 1) by reflexivity.
  assert (Hnull : SQL.group_size ids None < 2) by reflexivity.
  split; [now repeat split|].
  split; [exact (proj1 (C4_duplicate_flag Sample.t0 good c1 H1) "APP1" eq_refl Hmany)|].
  split; [now repeat split|].
  exact (proj1 (proj2 (C4_duplicate_flag Sample.t0 good c2 H2)) "APP2" eq_refl Hone Hnull).
Defined.

(** C4 fails as stated: of three good rows, two with a NULL id and one with
    the id APP1, the NULL id occurs twice and APP1 once, and the flag is
    NULL on all three rows, neither TRUE on the first two nor FALSE on the
    third. *)
Lemma C4_counterexample :
  let E := PlainEngine.engine in
  let good := [Sample.good None (Some "a@b.de");
               Sample.good None (Some "c@d.de");
               Sample.good (Some "APP1") (Some "e@f.de")] in
  let ids := List.map GoodApplications.application_id good in
  SQL.group_size ids None = 2 /\
  SQL.group_size ids (Some "APP1") = 1 /\
  List.map (fun c => CleanedApplications.flag_application_id_duplicate
                       (CleanedApplications.flag c))
    (cleaned_applications Sample.t0 good)
  = [None; None; None].
Proof. repeat split. Qed.

(** ** The quality report *)

Lemma rows_flagged_cons {R} (flag : R -> SQL.tri) (r : R) (t : list R) :
  rows_flagged flag (r :: t)
  = (if SQL.holds (flag r) then 1 else 0) + rows_flagged flag t.
Proof.
  unfold rows_flagged, SQL.COUNT. simpl.
  destruct (SQL.holds (flag r)); simpl length; lia.
Qed.

Lemma rows_flagged_nonneg {R} (flag : R -> SQL.tri) (t : list R) : 0 <= rows_flagged flag t.
Proof. unfold rows_flagged, SQL.COUNT. lia. Qed.

Lemma SUM_fold {R} (flag : R -> SQL.tri) (t : list R) (acc : option Z) :
  fold_left
    (fun acc x =>
       match x with
       | None => acc
       | Some v => Some (match acc with None => v | Some s => s + v end)
       end)
    (List.map (fun r => SQL.to_INT (flag r)) t) acc
  = match acc with
    | Some s => Some (s + rows_flagged flag t)
    | None => if existsb (fun r => has_value (flag r)) t
              then Some (rows_flagged flag t) else None
    end.
Proof.
  revert acc. induction t as [|r t IH]; intros acc.
  - simpl. destruct acc; [f_equal; unfold rows_flagged, SQL.COUNT; simpl; lia|reflexivity].
  - cbn [List.map fold_left existsb]. rewrite IH, rows_flagged_cons.
    destruct (flag r) as [[|]|], acc as [s|]; simpl; try reflexivity; f_equal; lia.
Qed.

Lemma SUM_flag_counts {R} (flag : R -> SQL.tri) (t : list R) :
  counts_flag (SUM_flag flag t) flag t.
Proof.
  unfold counts_flag, SUM_flag, SQL.SUM. rewrite SUM_fold. split.
  - intros (r & Hr & Hv).
    assert (Hex : existsb (fun r => has_value (flag r)) t = true).
    { apply existsb_exists. exists r. split; [assumption|]. now destruct (flag r). }
    now rewrite Hex.
  - intros Hnone.
    destruct (existsb (fun r => has_value (flag r)) t) eqn:Hex; [|reflexivity].
    apply existsb_exists in Hex as (r & Hr & Hv). rewrite (Hnone r Hr) in Hv. discriminate.
Qed.

Lemma problematic_app_where_iff `{Engine} (a : CleanedApplications.row) :
  SQL.holds (problematic_app_where a) = true <->
  some_flag_true (CleanedApplications.data_quality_flags_expr (CleanedApplications.flag a)).
Proof.
  unfold problematic_app_where, some_flag_true, CleanedApplications.data_quality_flags_expr.
  cbv zeta. rewrite !holds_OR, !orb_true_iff, !holds_true. split.
  - intros Hor. repeat destruct Hor as [Hor|Hor];
      rewrite Hor; eexists; simpl; eauto 10.
  - intros (name & Hin). simpl in Hin.
    repeat destruct Hin as [Hin|Hin]; try (injection Hin as _ ->; tauto). destruct Hin.
Qed.

Lemma problematic_lms_where_iff `{Engine} (l : LmsCleaned.row) :
  SQL.holds (problematic_lms_where l) = true <->
  some_flag_true (LmsCleaned.data_quality_flags_expr (LmsCleaned.flag l)).
Proof.
  unfold problematic_lms_where, some_flag_true, LmsCleaned.data_quality_flags_expr.
  cbv zeta. rewrite !holds_OR, !orb_true_iff, !holds_true. split.
  - intros Hor. repeat destruct Hor as [Hor|Hor];
      rewrite Hor; eexists; simpl; eauto 11.
  - intros (name & Hin). simpl in Hin.
    repeat destruct Hin as [Hin|Hin]; try (injection Hin as _ ->; tauto). destruct Hin.
Qed.

Lemma in_remove_dups {A} `{EqDecision A} (x : A) (l : list A) :
  In x (remove_dups l) <-> In x l.
Proof. rewrite <- !list_elem_of_In. apply elem_of_remove_dups. Qed.

Lemma in_problematic_ids `{Engine} cleaned lms x :
  In x (problematic_ids cleaned lms) <-> implicated cleaned lms x.
Proof.
  unfold problematic_ids, implicated, SQL.UNION, SQL.DISTINCT, SQL.WHERE.
  rewrite in_remove_dups, in_app_iff, !in_remove_dups, !in_map_iff.
  split; intros [(r & Hx & Hr)|(r & Hx & Hr)].
  - left. apply filter_In in Hr as [Hr Hw]. exists r.
    split; [assumption|]. split; [assumption|]. now apply problematic_app_where_iff.
  - right. apply filter_In in Hr as [Hr Hw]. exists r.
    split; [assumption|]. split; [assumption|]. now apply problematic_lms_where_iff.
  - destruct Hr as [Hid Hflag]. left. exists r. split; [assumption|].
    apply filter_In. split; [assumption|]. now apply problematic_app_where_iff.
  - destruct Hr as [Hid Hflag]. right. exists r. split; [assumption|].
    apply filter_In. split; [assumption|]. now apply problematic_lms_where_iff.
Qed.

Lemma NoDup_problematic_ids `{Engine} cleaned lms : NoDup (problematic_ids cleaned lms).
Proof. unfold problematic_ids, SQL.UNION. apply NoDup_remove_dups. Qed.

Global Instance varchar_le_transitive : Transitive varchar_le.
Proof.
  intros [x|] [y|] [z|]; simpl; try tauto. intros Hxy Hyz. now transitivity y.
Qed.

Global Instance varchar_le_total : Total varchar_le.
Proof.
  intros [x|] [y|]; simpl; try tauto. apply (total String.le).
Qed.

Lemma StronglySorted_strict {A} (R : relation A) (l : list A) :
  StronglySorted R l -> NoDup l -> StronglySorted (fun x y => R x y /\ x <> y) l.
Proof.
  induction 1 as [|x l Hl IH Hx]; intros Hnd; constructor.
  - apply IH. now apply NoDup_cons in Hnd.
  - apply NoDup_cons in Hnd as [Hnotin _].
    rewrite Forall_forall in *. intros y Hy. split; [now apply Hx|].
    intros ->. apply Hnotin. now apply list_elem_of_In.
Qed.

Lemma ARRAY_AGG_ORDER_BY_spec (xs : list (option string)) :
  NoDup xs ->
  match ARRAY_AGG_ORDER_BY xs with
  | None => xs = []
  | Some ids => xs <> [] /\ StronglySorted varchar_lt ids /\ NoDup ids /\
                forall x, In x ids <-> In x xs
  end.
Proof.
  intros Hnd. destruct xs as [|x xs]; [reflexivity|]. cbn [ARRAY_AGG_ORDER_BY].
  pose proof (merge_sort_Permutation varchar_le (x :: xs)) as Hperm.
  assert (Hnd' : NoDup (merge_sort varchar_le (x :: xs))).
  { now rewrite Hperm. }
  split; [discriminate|]. split; [|split; [assumption|]].
  - apply StronglySorted_strict; [|assumption].
    apply StronglySorted_merge_sort; apply _.
  - intros y. split; apply Permutation_in; [assumption|now symmetry].
Qed.

(** C5, as the code has it. Each of the nineteen counters of the report is
    the number of rows of its cleaned table on which its flag is TRUE as
    soon as one row of the table has a value for the flag, and is NULL when
    none has, an empty table included.  problematic_application_ids is NULL
    when no application_id is implicated, and otherwise the list, in
    ascending byte order with a NULL id last and no entry twice, of the
    application_id values that carry a TRUE flag on a row of
    cleaned_applications or on a row of lms_cleaned. *)
Theorem C5_report_completeness `{Engine} (now : Timestamp.t)
  (cleaned : list CleanedApplications.row) (lms : list LmsCleaned.row)
  (bad : list RawApplications.row) :
  (counts_flag
     (DataQualityReport.app_application_id_null (data_quality_report now cleaned lms bad))
     (app_flag CleanedApplications.flag_application_id_null) cleaned /\
   counts_flag
     (DataQualityReport.app_application_id_duplicate (data_quality_report now cleaned lms bad))
     (app_flag CleanedApplications.flag_application_id_duplicate) cleaned /\
   counts_flag
     (DataQualityReport.app_loan_amount_non_positive (data_quality_report now cleaned lms bad))
     (app_flag CleanedApplications.flag_loan_amount_non_positive) cleaned /\
   counts_flag
     (DataQualityReport.app_credit_score_missing (data_quality_report now cleaned lms bad))
     (app_flag CleanedApplications.flag_credit_score_missing) cleaned /\
   counts_flag
     (DataQualityReport.app_credit_score_out_of_range (data_quality_report now cleaned lms bad))
     (app_flag CleanedApplications.flag_credit_score_out_of_range) cleaned /\
   counts_flag
     (DataQualityReport.app_postal_code_invalid (data_quality_report now cleaned lms bad))
     (app_flag CleanedApplications.flag_postal_code_invalid) cleaned /\
   counts_flag
     (DataQualityReport.app_installation_type_invalid (data_quality_report now cleaned lms bad))
     (app_flag CleanedApplications.flag_installation_type_invalid) cleaned /\
   counts_flag
     (DataQualityReport.app_system_size_invalid (data_quality_report now cleaned lms bad))
     (app_flag CleanedApplications.flag_system_size_invalid) cleaned /\
   counts_flag
     (DataQualityReport.app_system_size_present_for_heat_pump
        (data_quality_report now cleaned lms bad))
     (app_flag CleanedApplications.flag_system_size_present_for_heat_pump) cleaned) /\
  (counts_flag
     (DataQualityReport.lms_loan_id_null (data_quality_report now cleaned lms bad))
     (lms_flag LmsCleaned.flag_loan_id_null) lms /\
   counts_flag
     (DataQualityReport.lms_application_id_null (data_quality_report now cleaned lms bad))
     (lms_flag LmsCleaned.flag_application_id_null) lms /\
   counts_flag
     (DataQualityReport.lms_application_id_invalid_format
        (data_quality_report now cleaned lms bad))
     (lms_flag LmsCleaned.flag_application_id_invalid_format) lms /\
   counts_flag
     (DataQualityReport.lms_loan_id_duplicate (data_quality_report now cleaned lms bad))
     (lms_flag LmsCleaned.flag_loan_id_duplicate) lms /\
   counts_flag
     (DataQualityReport.lms_application_id_duplicate (data_quality_report now cleaned lms bad))
     (lms_flag LmsCleaned.flag_application_id_duplicate) lms /\
   counts_flag
     (DataQualityReport.lms_current_balance_negative (data_quality_report now cleaned lms bad))
     (lms_flag LmsCleaned.flag_current_balance_negative) lms /\
   counts_flag
     (DataQualityReport.lms_days_past_due_negative (data_quality_report now cleaned lms bad))
     (lms_flag LmsCleaned.flag_days_past_due_negative) lms /\
   counts_flag
     (DataQualityReport.lms_last_payment_before_disbursement
        (data_quality_report now cleaned lms bad))
     (lms_flag LmsCleaned.flag_last_payment_before_disbursement) lms /\
   counts_flag
     (DataQualityReport.lms_next_due_before_disbursement
        (data_quality_report now cleaned lms bad))
     (lms_flag LmsCleaned.flag_next_due_before_disbursement) lms /\
   counts_flag
     (DataQualityReport.lms_last_payment_after_next_due
        (data_quality_report now cleaned lms bad))
     (lms_flag LmsCleaned.flag_last_payment_after_next_due) lms) /\
  match DataQualityReport.problematic_application_ids
          (data_quality_report now cleaned lms bad) with
  | None => forall x, ~ implicated cleaned lms x
  | Some ids =>
    ids <> [] /\ StronglySorted varchar_lt ids /\ NoDup ids /\
    forall x, In x ids <-> implicated cleaned lms x
  end.
Proof.
  split; [|split].
  - repeat split; apply SUM_flag_counts.
  - repeat split; apply SUM_flag_counts.
  - cbn [data_quality_report DataQualityReport.problematic_application_ids].
    pose proof (ARRAY_AGG_ORDER_BY_spec _ (NoDup_problematic_ids cleaned lms)) as Hagg.
    destruct (ARRAY_AGG_ORDER_BY (problematic_ids cleaned lms)) as [ids|].
    + destruct Hagg as (Hne & Hsorted & Hnd & Hin).
      split; [|split; [assumption|split; [assumption|]]].
      * intros ->. destruct (problematic_ids cleaned lms) as [|x xs]; [now apply Hne|].
        apply (proj2 (Hin x)). now left.
      * intros x. rewrite Hin. apply in_problematic_ids.
    + intros x Hx. apply in_problematic_ids in Hx. rewrite Hagg in Hx. destruct Hx.
Qed.

(** C5 fails as stated: when the only application row of the feed is
    quarantined and the LMS feed has no row, both cleaned tables are empty;
    no row carries a TRUE flag, and the counters are NULL, not 0, as is the
    list of ids. *)
Lemma C5_counterexample :
  let E := PlainEngine.engine in
  let T := main Sample.clk
             [Sample.application (Some "APP1") (Some "a") (Some "720") (Some "approved")] [] in
  DataQualityReport.quarantined_applications (t_data_quality_report T) = 1 /\
  t_cleaned_applications T = [] /\
  rows_flagged (app_flag CleanedApplications.flag_application_id_null)
    (t_cleaned_applications T) = 0 /\
  DataQualityReport.app_application_id_null (t_data_quality_report T) = None /\
  rows_flagged (lms_flag LmsCleaned.flag_loan_id_null) (t_lms_cleaned T) = 0 /\
  DataQualityReport.lms_loan_id_null (t_data_quality_report T) = None /\
  DataQualityReport.problematic_application_ids (t_data_quality_report T) = None.
Proof. repeat split. Qed.


(** ** Further properties of the timestamp and of the row counts *)



(** Every row of one table carries the processed_at of that table's own
    statement, and no row is lost between the tables: cleaned_applications
    has one row per good row, lms_cleaned one per raw LMS row, and
    loan_portfolio at least one per cleaned application. *)
Theorem rows_retained_and_stamped `{Engine} (clk : clock)
  (raw_applications : list RawApplications.row) (raw_lms : list RawLms.row) :
  Forall (fun c => CleanedApplications.processed_at c
                   = processed_at_expr (now_cleaned_applications clk))
    (t_cleaned_applications (main clk raw_applications raw_lms)) /\
  Forall (fun l => LmsCleaned.processed_at l = processed_at_expr (now_lms_cleaned clk))
    (t_lms_cleaned (main clk raw_applications raw_lms)) /\
  length (t_cleaned_applications (main clk raw_applications raw_lms))
  = length (t_raw_applications_good (main clk raw_applications raw_lms)) /\
  length (t_lms_cleaned (main clk raw_applications raw_lms)) = length raw_lms /\
  (length (t_cleaned_applications (main clk raw_applications raw_lms))
   <= length (t_loan_portfolio (main clk raw_applications raw_lms)))%nat.
Proof.
  cbn [main t_cleaned_applications t_lms_cleaned t_raw_applications_good t_loan_portfolio].
  split; [|split; [|split; [|split]]].
  - apply Forall_forall. intros c Hc. apply list_elem_of_In in Hc.
    apply in_cleaned_applications in Hc as (g & _ & ->). reflexivity.
  - apply Forall_forall. intros l Hl. apply list_elem_of_In in Hl.
    apply in_lms_cleaned in Hl as (r & _ & ->). reflexivity.
  - unfold cleaned_applications. apply length_map.
  - unfold lms_cleaned. apply length_map.
  - unfold loan_portfolio, SQL.LEFT_JOIN. rewrite length_map.
    induction (cleaned_applications (now_cleaned_applications clk)
                 (raw_applications_good raw_applications)) as [|a t IH];
      [reflexivity|].
    cbn [flat_map]. rewrite length_app. cbn [length].
    destruct (List.filter _ _) as [|m ms]; cbn [length]; [lia|].
    rewrite length_map. cbn [length]. lia.
Qed.

(** ** The flags of an application row *)

Lemma IN_literals {A} `{EqDecision A} (a : A) (l : list A) :
  SQL.IN (Some a) (List.map Some l) = Some true /\ In a l \/
  SQL.IN (Some a) (List.map Some l) = Some false /\ ~ In a l.
Proof.
  destruct (decide (Some a ∈ List.map Some l)) as [Hin|Hnot];
    rewrite list_elem_of_In in *.
  - left. split; [now apply IN_Some_true|].
    apply in_map_iff in Hin as (b & Hb & Hin). now injection Hb as ->.
  - right. split.
    + apply IN_Some_false; [assumption|].
      intros Hnull. apply in_map_iff in Hnull as (b & Hb & _). discriminate.
    + intros Hin. apply Hnot. now apply in_map.
Qed.

Lemma IN_NULL_literals {A} `{EqDecision A} (v : option A) (vs : list (option A)) :
  SQL.IN None (v :: vs) = None.
Proof. reflexivity. Qed.

(** Six of the nine application flags always have a value, whatever the
    row.  The two system-size flags are NULL on some rows without an
    installation type: flag_system_size_invalid exactly when the type is
    NULL and the size is NULL or not positive, and
    flag_system_size_present_for_heat_pump exactly when the type is NULL and
    the size is present. *)
Theorem application_flags_null_cases `{Engine} (dupes : list (option string * Z))
  (t : CleanedApplications.typed) :
  (CleanedApplications.flag_application_id_null (CleanedApplications.select_flags dupes t)
     <> None /\
   CleanedApplications.flag_loan_amount_non_positive (CleanedApplications.select_flags dupes t)
     <> None /\
   CleanedApplications.flag_credit_score_missing (CleanedApplications.select_flags dupes t)
     <> None /\
   CleanedApplications.flag_credit_score_out_of_range (CleanedApplications.select_flags dupes t)
     <> None /\
   CleanedApplications.flag_postal_code_invalid (CleanedApplications.select_flags dupes t)
     <> None /\
   CleanedApplications.flag_installation_type_invalid (CleanedApplications.select_flags dupes t)
     <> None) /\
  (CleanedApplications.flag_system_size_invalid (CleanedApplications.select_flags dupes t)
     = None <->
   CleanedApplications.installation_type t = None /\
   (CleanedApplications.system_size_kwp t = None \/
    exists x, CleanedApplications.system_size_kwp t = Some x /\ DOUBLE_le_0 x = true)) /\
  (CleanedApplications.flag_system_size_present_for_heat_pump
     (CleanedApplications.select_flags dupes t) = None <->
   CleanedApplications.installation_type t = None /\
   CleanedApplications.system_size_kwp t <> None).
Proof.
  destruct t as [id email partner ty size amount term adate score income postal status].
  cbn [CleanedApplications.select_flags CleanedApplications.flag_application_id_null
    CleanedApplications.flag_loan_amount_non_positive
    CleanedApplications.flag_credit_score_missing
    CleanedApplications.flag_credit_score_out_of_range
    CleanedApplications.flag_postal_code_invalid
    CleanedApplications.flag_installation_type_invalid
    CleanedApplications.flag_system_size_invalid
    CleanedApplications.flag_system_size_present_for_heat_pump
    CleanedApplications.application_id CleanedApplications.loan_amount_eur
    CleanedApplications.credit_score CleanedApplications.postal_code
    CleanedApplications.installation_type CleanedApplications.system_size_kwp].
  split; [repeat split|split].
  - destruct id as [s|]; simpl; [destruct (str_eq _ _)|]; discriminate.
  - destruct amount as [x|]; simpl; [destruct (DOUBLE_le_0 x)|]; discriminate.
  - destruct score; discriminate.
  - destruct score as [n|]; simpl; [destruct (n <? 300), (n >? 850)|]; discriminate.
  - destruct postal as [s|]; simpl; [destruct (Str.matches_five_digits s)|]; discriminate.
  - destruct ty as [s|]; [|discriminate].
    destruct (IN_literals s INSTALLATION_TYPES) as [[-> _]|[-> _]]; discriminate.
  - destruct ty as [s|].
    + change [Some "solar_pv"; Some "solar_battery"]
        with (List.map Some ["solar_pv"; "solar_battery"]).
      destruct (IN_literals s ["solar_pv"; "solar_battery"]) as [[-> _]|[-> _]];
        (split; [|intros [Hty _]; discriminate Hty]);
        destruct size as [x|]; simpl; try destruct (DOUBLE_le_0 x); discriminate.
    + rewrite IN_NULL_literals. destruct size as [x|]; simpl.
      * destruct (DOUBLE_le_0 x) eqn:Hx; split; try discriminate.
        -- intros _. split; [reflexivity|]. right. now exists x.
        -- reflexivity.
        -- intros [_ [Hs|(y & Hy & Hle)]]; [discriminate|]. injection Hy as <-. congruence.
      * split; [|reflexivity]. intros _. split; [reflexivity|]. now left.
  - destruct ty as [s|]; simpl.
    + split; [|intros [Hty _]; discriminate Hty].
      destruct (str_eq s "heat_pump"), size; discriminate.
    + destruct size as [x|]; simpl; split; try discriminate; try reflexivity.
      * intros _. split; [reflexivity|discriminate].
      * intros [_ Hs]. now destruct Hs.
Qed.

Lemma AND_true a b : SQL.AND a b = Some true -> a = Some true /\ b = Some true.
Proof. destruct a as [[|]|], b as [[|]|]; simpl; intros; try discriminate; now split. Qed.

Lemma system_size_invalid_type `{Engine} dupes (t : CleanedApplications.typed) :
  CleanedApplications.flag_system_size_invalid (CleanedApplications.select_flags dupes t)
    = Some true ->
  CleanedApplications.installation_type t = Some "solar_pv" \/
  CleanedApplications.installation_type t = Some "solar_battery".
Proof.
  cbn [CleanedApplications.select_flags CleanedApplications.flag_system_size_invalid].
  intros Hf. apply AND_true in Hf as [Hin _].
  apply IN_true_inv in Hin as (s & -> & Hs).
  destruct Hs as [Hs|[Hs|[]]]; injection Hs as <-; auto.
Qed.

Lemma heat_pump_flag_type `{Engine} dupes (t : CleanedApplications.typed) :
  CleanedApplications.flag_system_size_present_for_heat_pump
    (CleanedApplications.select_flags dupes t) = Some true ->
  CleanedApplications.installation_type t = Some "heat_pump".
Proof.
  cbn [CleanedApplications.select_flags
    CleanedApplications.flag_system_size_present_for_heat_pump].
  intros Hf. apply AND_true in Hf as [Heq _].
  destruct (CleanedApplications.installation_type t) as [s|]; [|discriminate].
  simpl in Heq. injection Heq as Heq. apply str_eq_true in Heq. now subst.
Qed.

Lemma installation_type_invalid_type `{Engine} dupes (t : CleanedApplications.typed) s :
  CleanedApplications.flag_installation_type_invalid (CleanedApplications.select_flags dupes t)
    = Some true ->
  CleanedApplications.installation_type t = Some s -> ~ In s INSTALLATION_TYPES.
Proof.
  cbn [CleanedApplications.select_flags CleanedApplications.flag_installation_type_invalid].
  intros Hf Hty. rewrite Hty in Hf.
  destruct (IN_literals s INSTALLATION_TYPES) as [[Hin _]|[_ Hnot]]; [|assumption].
  rewrite Hin in Hf. discriminate.
Qed.

(** The two system-size flags are never TRUE together, and neither is TRUE
    on a row whose installation type is flagged invalid: the size is judged
    only for one of the three known types. *)
Theorem system_size_flags_exclusive `{Engine} (dupes : list (option string * Z))
  (t : CleanedApplications.typed) :
  ~ (CleanedApplications.flag_system_size_invalid (CleanedApplications.select_flags dupes t)
       = Some true /\
     CleanedApplications.flag_system_size_present_for_heat_pump
       (CleanedApplications.select_flags dupes t) = Some true) /\
  (CleanedApplications.flag_installation_type_invalid (CleanedApplications.select_flags dupes t)
     = Some true ->
   CleanedApplications.flag_system_size_invalid (CleanedApplications.select_flags dupes t)
     <> Some true /\
   CleanedApplications.flag_system_size_present_for_heat_pump
     (CleanedApplications.select_flags dupes t) <> Some true).
Proof.
  split.
  - intros [H1 H2]. apply system_size_invalid_type in H1. apply heat_pump_flag_type in H2.
    rewrite H2 in H1. destruct H1; discriminate.
  - intros H0. split; intros H1.
    + apply system_size_invalid_type in H1.
      destruct H1 as [H1|H1]; apply (installation_type_invalid_type _ _ _ H0 H1);
        simpl; auto.
    + apply heat_pump_flag_type in H1.
      apply (installation_type_invalid_type _ _ _ H0 H1). simpl. auto.
Qed.

Lemma risk_flags_agree `{Engine} (now : Timestamp.t)
  (dupes : list (option string * Z)) (g : GoodApplications.row) :
  (CleanedApplications.risk_category (CleanedApplications.select now dupes g) = "Unknown" <->
   CleanedApplications.flag_credit_score_missing
     (CleanedApplications.flag (CleanedApplications.select now dupes g)) = Some true) /\
  (CleanedApplications.risk_category (CleanedApplications.select now dupes g) = "Invalid" <->
   CleanedApplications.flag_credit_score_out_of_range
     (CleanedApplications.flag (CleanedApplications.select now dupes g)) = Some true).
Proof.
  cbn [CleanedApplications.select CleanedApplications.risk_category CleanedApplications.flag
    CleanedApplications.select_flags CleanedApplications.flag_credit_score_missing
    CleanedApplications.flag_credit_score_out_of_range].
  destruct (CleanedApplications.credit_score (CleanedApplications.select_typed g)) as [n|].
  - rewrite risk_category_expr_Some. cbn [SQL.IS_NULL SQL.IS_NOT_NULL SQL.cmp SQL.OR SQL.AND].
    rewrite Z.gtb_ltb.
    destruct (n <? 300), (850 <? n), (750 <=? n), ((700 <=? n) && (n <=? 749)),
      ((650 <=? n) && (n <=? 699)); unfold SQL.IS_NULL, SQL.IS_NOT_NULL; simpl;
      split; split; intros Hx; solve [discriminate Hx | reflexivity].
  - unfold SQL.IS_NULL, SQL.IS_NOT_NULL.
    split; split; simpl; intros Hx; solve [discriminate Hx | reflexivity].
Qed.

(** The risk category agrees with the two credit-score flags of the same
    row: it is Unknown exactly when flag_credit_score_missing is TRUE and
    Invalid exactly when flag_credit_score_out_of_range is TRUE. *)
Theorem risk_category_agrees_with_flags `{Engine} (now : Timestamp.t)
  (dupes : list (option string * Z)) (g : GoodApplications.row) :
  (CleanedApplications.risk_category (CleanedApplications.select now dupes g) = "Unknown" <->
   CleanedApplications.flag_credit_score_missing
     (CleanedApplications.flag (CleanedApplications.select now dupes g)) = Some true) /\
  (CleanedApplications.risk_category (CleanedApplications.select now dupes g) = "Invalid" <->
   CleanedApplications.flag_credit_score_out_of_range
     (CleanedApplications.flag (CleanedApplications.select now dupes g)) = Some true).
Proof. exact (risk_flags_agree now dupes g). Qed.

(** loan_to_income_ratio is the quotient of the loan amount by the income
    exactly when both are present and neither is zero or negative, and NULL
    in every other case; the divisor is then never zero or negative. *)
Theorem loan_to_income_ratio_cases `{Engine} (dupes : list (option string * Z))
  (t : CleanedApplications.typed) :
  CleanedApplications.loan_to_income_ratio_expr t (CleanedApplications.select_flags dupes t)
  = match CleanedApplications.loan_amount_eur t, CleanedApplications.annual_income_eur t with
    | Some loan, Some income =>
      if DOUBLE_le_0 income || DOUBLE_le_0 loan then None
      else Some (DOUBLE_div loan income)
    | _, _ => None
    end.
Proof.
  unfold CleanedApplications.loan_to_income_ratio_expr.
  cbn [CleanedApplications.select_flags CleanedApplications.flag_loan_amount_non_positive
    SQL.CASE].
  destruct (CleanedApplications.loan_amount_eur t) as [l|],
    (CleanedApplications.annual_income_eur t) as [i|]; simpl;
    try destruct (DOUBLE_le_0 i); try destruct (DOUBLE_le_0 l); reflexivity.
Qed.

(** ** The flags of an LMS row *)

(** Eight of the ten LMS flags always have a value: the two null checks, the
    format check, the two sign checks and the three date-ordering checks are
    FALSE, not NULL, when a value they look at is missing. *)
Theorem lms_flags_null_safe `{Engine} (loan_dupes app_dupes : list (option string))
  (t : LmsCleaned.typed) :
  LmsCleaned.flag_loan_id_null (LmsCleaned.select_flags loan_dupes app_dupes t) <> None /\
  LmsCleaned.flag_application_id_null (LmsCleaned.select_flags loan_dupes app_dupes t)
    <> None /\
  LmsCleaned.flag_application_id_invalid_format
    (LmsCleaned.select_flags loan_dupes app_dupes t) <> None /\
  LmsCleaned.flag_current_balance_negative (LmsCleaned.select_flags loan_dupes app_dupes t)
    <> None /\
  LmsCleaned.flag_days_past_due_negative (LmsCleaned.select_flags loan_dupes app_dupes t)
    <> None /\
  LmsCleaned.flag_last_payment_before_disbursement
    (LmsCleaned.select_flags loan_dupes app_dupes t) <> None /\
  LmsCleaned.flag_next_due_before_disbursement
    (LmsCleaned.select_flags loan_dupes app_dupes t) <> None /\
  LmsCleaned.flag_last_payment_after_next_due
    (LmsCleaned.select_flags loan_dupes app_dupes t) <> None /\
  ((LmsCleaned.last_payment_date t = None \/ LmsCleaned.disbursement_date t = None) ->
   LmsCleaned.flag_last_payment_before_disbursement
     (LmsCleaned.select_flags loan_dupes app_dupes t) = Some false) /\
  ((LmsCleaned.next_payment_due t = None \/ LmsCleaned.disbursement_date t = None) ->
   LmsCleaned.flag_next_due_before_disbursement
     (LmsCleaned.select_flags loan_dupes app_dupes t) = Some false) /\
  ((LmsCleaned.last_payment_date t = None \/ LmsCleaned.next_payment_due t = None) ->
   LmsCleaned.flag_last_payment_after_next_due
     (LmsCleaned.select_flags loan_dupes app_dupes t) = Some false).
Proof.
  destruct t as [loan app disb bal dpd pay last next].
  cbn [LmsCleaned.select_flags LmsCleaned.flag_loan_id_null
    LmsCleaned.flag_application_id_null LmsCleaned.flag_application_id_invalid_format
    LmsCleaned.flag_current_balance_negative LmsCleaned.flag_days_past_due_negative
    LmsCleaned.flag_last_payment_before_disbursement
    LmsCleaned.flag_next_due_before_disbursement LmsCleaned.flag_last_payment_after_next_due
    LmsCleaned.loan_id LmsCleaned.application_id LmsCleaned.disbursement_date
    LmsCleaned.current_balance_eur LmsCleaned.days_past_due LmsCleaned.last_payment_date
    LmsCleaned.next_payment_due].
  repeat split.
  - destruct loan as [s|]; simpl; [destruct (str_eq _ _)|]; discriminate.
  - destruct app as [s|]; simpl; [destruct (str_eq _ _)|]; discriminate.
  - destruct app as [s|]; simpl; [destruct (Str.matches_APP_digits s)|]; discriminate.
  - destruct bal as [x|]; simpl; [destruct (DOUBLE_lt_0 x)|]; discriminate.
  - destruct dpd as [n|]; simpl; [destruct (n <? 0)|]; discriminate.
  - destruct last as [a|], disb as [b|]; simpl; try destruct (Date.ltb a b); discriminate.
  - destruct next as [a|], disb as [b|]; simpl; try destruct (Date.ltb a b); discriminate.
  - destruct last as [a|], next as [b|]; simpl; try destruct (Date.gtb a b); discriminate.
  - intros [Hn|Hn]; destruct last, disb; simpl; solve [discriminate Hn | reflexivity].
  - intros [Hn|Hn]; destruct next, disb; simpl; solve [discriminate Hn | reflexivity].
  - intros [Hn|Hn]; destruct last, next; simpl; solve [discriminate Hn | reflexivity].
Qed.

Lemma Date_ltb_iff (a b : Date.t) :
  Date.ltb a b = true <->
  Date.year a < Date.year b \/
  Date.year a = Date.year b /\
  (Date.month a < Date.month b \/
   Date.month a = Date.month b /\ Date.day a < Date.day b).
Proof.
  unfold Date.ltb, Date.compare.
  destruct (Z.compare_spec (Date.year a) (Date.year b));
    destruct (Z.compare_spec (Date.month a) (Date.month b));
    destruct (Z.compare_spec (Date.day a) (Date.day b));
    split; intros Hx; try discriminate Hx; try reflexivity; lia.
Qed.

Lemma Date_ltb_trans (a b c : Date.t) :
  Date.ltb a b = true -> Date.ltb b c = true -> Date.ltb a c = true.
Proof. rewrite !Date_ltb_iff. lia. Qed.

(** The date-ordering flags are consistent with the order of dates: a last
    payment flagged both before the disbursement and after the next due date
    forces the next due date to be flagged before the disbursement. *)
Theorem lms_date_flags_consistent `{Engine} (loan_dupes app_dupes : list (option string))
  (t : LmsCleaned.typed) :
  LmsCleaned.flag_last_payment_before_disbursement
    (LmsCleaned.select_flags loan_dupes app_dupes t) = Some true ->
  LmsCleaned.flag_last_payment_after_next_due
    (LmsCleaned.select_flags loan_dupes app_dupes t) = Some true ->
  LmsCleaned.flag_next_due_before_disbursement
    (LmsCleaned.select_flags loan_dupes app_dupes t) = Some true.
Proof.
  destruct t as [loan app disb bal dpd pay last next].
  cbn [LmsCleaned.select_flags LmsCleaned.flag_last_payment_before_disbursement
    LmsCleaned.flag_next_due_before_disbursement LmsCleaned.flag_last_payment_after_next_due
    LmsCleaned.disbursement_date LmsCleaned.last_payment_date LmsCleaned.next_payment_due].
  intros H1 H2.
  apply AND_true in H1 as [_ H1]. apply AND_true in H2 as [_ H2].
  destruct last as [l|], disb as [d|], next as [n|]; try discriminate.
  simpl in *. injection H1 as H1. injection H2 as H2. unfold Date.gtb in H2.
  now rewrite (Date_ltb_trans n l d H2 H1).
Qed.

(** The run of the date flags on a loan paid on 2023-06-01, disbursed on
    2023-09-01 and due on 2023-03-01. *)
Lemma lms_date_flags_consistent_witness :
  let E := PlainEngine.engine in
  let t := LmsCleaned.select_typed
    {| RawLms.loan_id := Some "L1"; RawLms.application_id := Some "APP1";
       RawLms.disbursement_date := Some "2023-09-01";
       RawLms.current_balance_eur := Some "9000"; RawLms.days_past_due := Some "0";
       RawLms.payment_status := Some "active";
       RawLms.last_payment_date := Some "2023-06-01";
       RawLms.next_payment_due := Some "2023-03-01" |} in
  LmsCleaned.flag_last_payment_before_disbursement (LmsCleaned.select_flags [] [] t)
    = Some true /\
  LmsCleaned.flag_last_payment_after_next_due (LmsCleaned.select_flags [] [] t) = Some true /\
  LmsCleaned.flag_next_due_before_disbursement (LmsCleaned.select_flags [] [] t) = Some true.
Proof.
  intros E t.
  assert (H1 : LmsCleaned.flag_last_payment_before_disbursement
                 (LmsCleaned.select_flags [] [] t) = Some true) by reflexivity.
  assert (H2 : LmsCleaned.flag_last_payment_after_next_due
                 (LmsCleaned.select_flags [] [] t) = Some true) by reflexivity.
  split; [exact H1|]. split; [exact H2|].
  exact (lms_date_flags_consistent [] [] t H1 H2).
Defined.

(** ** Duplicate ids of the LMS feed *)









(** ** The normalised e-mail address *)















(** ** The counts of the report over a whole run *)

Lemma rows_flagged_le {R} (flag : R -> SQL.tri) (t : list R) :
  rows_flagged flag t <= SQL.COUNT t.
Proof.
  unfold rows_flagged, SQL.COUNT. apply inj_le.
  induction t as [|r t IH]; simpl; [lia|]. destruct (SQL.holds (flag r)); simpl; lia.
Qed.

Lemma SUM_flag_within {R} (flag : R -> SQL.tri) (t : list R) :
  within (SUM_flag flag t) (SQL.COUNT t).
Proof.
  intros v Hv. unfold SUM_flag, SQL.SUM in Hv. rewrite SUM_fold in Hv.
  destruct (existsb _ t); [|discriminate]. injection Hv as <-.
  split; [apply rows_flagged_nonneg|apply rows_flagged_le].
Qed.

(** Over a whole run, applications_processed and quarantined_applications
    add up to the number of raw application rows, lms_processed is the
    number of raw LMS rows, and every per-rule counter that is not NULL lies
    between 0 and the number of rows processed for its feed. *)
Theorem report_counts_of_a_run `{Engine} (clk : clock)
  (raw_applications : list RawApplications.row) (raw_lms : list RawLms.row) :
  DataQualityReport.applications_processed
    (t_data_quality_report (main clk raw_applications raw_lms))
  + DataQualityReport.quarantined_applications
      (t_data_quality_report (main clk raw_applications raw_lms))
  = SQL.COUNT raw_applications /\
  DataQualityReport.lms_processed (t_data_quality_report (main clk raw_applications raw_lms))
  = SQL.COUNT raw_lms /\
  Forall (fun counter =>
            within (counter (t_data_quality_report (main clk raw_applications raw_lms)))
              (DataQualityReport.applications_processed
                 (t_data_quality_report (main clk raw_applications raw_lms))))
    [DataQualityReport.app_application_id_null;
     DataQualityReport.app_application_id_duplicate;
     DataQualityReport.app_loan_amount_non_positive;
     DataQualityReport.app_credit_score_missing;
     DataQualityReport.app_credit_score_out_of_range;
     DataQualityReport.app_postal_code_invalid;
     DataQualityReport.app_installation_type_invalid;
     DataQualityReport.app_system_size_invalid;
     DataQualityReport.app_system_size_present_for_heat_pump] /\
  Forall (fun counter =>
            within (counter (t_data_quality_report (main clk raw_applications raw_lms)))
              (DataQualityReport.lms_processed
                 (t_data_quality_report (main clk raw_applications raw_lms))))
    [DataQualityReport.lms_loan_id_null;
     DataQualityReport.lms_application_id_null;
     DataQualityReport.lms_application_id_invalid_format;
     DataQualityReport.lms_loan_id_duplicate;
     DataQualityReport.lms_application_id_duplicate;
     DataQualityReport.lms_current_balance_negative;
     DataQualityReport.lms_days_past_due_negative;
     DataQualityReport.lms_last_payment_before_disbursement;
     DataQualityReport.lms_next_due_before_disbursement;
     DataQualityReport.lms_last_payment_after_next_due].
Proof.
  cbn [main t_data_quality_report data_quality_report
    DataQualityReport.applications_processed DataQualityReport.quarantined_applications
    DataQualityReport.lms_processed].
  split; [|split; [|split]].
  - unfold cleaned_applications, raw_applications_good. rewrite !COUNT_map.
    rewrite Z.add_comm, <- COUNT_app. unfold SQL.COUNT. f_equal. symmetry.
    apply Permutation_length, WHERE_split, good_where_complement.
  - unfold lms_cleaned. apply COUNT_map.
  - repeat (apply Forall_cons_2; [exact (SUM_flag_within _ _)|]). apply Forall_nil_2.
  - repeat (apply Forall_cons_2; [exact (SUM_flag_within _ _)|]). apply Forall_nil_2.
Qed.

(** ** Rows of the portfolio *)

Lemma on_holds `{Engine} (x : CleanedApplications.row) (l : LmsCleaned.row) (s : string) :
  app_id x = Some s ->
  SQL.holds (LoanPortfolio.on x l) = bool_decide (lms_app_id l = Some s).
Proof.
  unfold LoanPortfolio.on, app_id, lms_app_id. intros ->.
  destruct (LmsCleaned.application_id (LmsCleaned.cols l)) as [y|]; simpl.
  - unfold str_eq. destruct (decide (s = y)) as [->|Hne].
    + now rewrite !bool_decide_true.
    + rewrite !bool_decide_false; [reflexivity|congruence|assumption].
  - first [reflexivity | symmetry; now apply bool_decide_false].
Qed.

Lemma on_true_ids `{Engine} (x : CleanedApplications.row) (l : LmsCleaned.row) :
  LoanPortfolio.on x l = Some true ->
  exists s, app_id x = Some s /\ lms_app_id l = Some s.
Proof.
  unfold LoanPortfolio.on, app_id, lms_app_id.
  destruct (CleanedApplications.application_id (CleanedApplications.cols x)) as [s|],
    (LmsCleaned.application_id (LmsCleaned.cols l)) as [y|]; simpl; try discriminate.
  intros Heq. injection Heq as Heq. apply str_eq_true in Heq. subst. now exists y.
Qed.

(** The join keeps no LMS row by itself and matches on equal, non-NULL ids
    only: every portfolio row either has all its LMS columns NULL, or its
    application_id and its lms_application_id are the same string.  An
    application with a NULL id therefore never finds a loan, even among LMS
    rows with a NULL application_id. *)
Theorem portfolio_rows_match_on_id `{Engine} (today : Date.t)
  (cleaned : list CleanedApplications.row) (lms : list LmsCleaned.row)
  (p : LoanPortfolio.row) :
  In p (loan_portfolio today cleaned lms) ->
  (lms_columns_null p \/
   exists s, app_id (LoanPortfolio.a p) = Some s /\
             LoanPortfolio.lms_application_id p = Some s) /\
  (app_id (LoanPortfolio.a p) = None -> lms_columns_null p).
Proof.
  intros Hp. apply in_loan_portfolio in Hp as (x & o & -> & _ & Ho).
  destruct o as [l|].
  - destruct Ho as [_ Hon]. apply on_true_ids in Hon as (s & Hx & Hl). split.
    + right. exists s. split; [exact Hx|exact Hl].
    + simpl. intros Hnone. rewrite Hnone in Hx. discriminate.
  - split; [left|intros _]; repeat split.
Qed.

(** Two applications with a NULL id and one LMS row with a NULL
    application_id: the portfolio rows carry no loan. *)
Lemma portfolio_rows_match_on_id_witness :
  let E := PlainEngine.engine in
  let good := [Sample.good None (Some "a@b.de"); Sample.good None (Some "c@d.de")] in
  let cleaned := cleaned_applications Sample.t0 good in
  let lms := lms_cleaned Sample.t0 [Sample.loan (Some "L1") None None (Some "0")] in
  let today := Date.mk 2026 11 3 in
  let p := LoanPortfolio.select today
             (CleanedApplications.select Sample.t0 (app_dupes good)
                (Sample.good None (Some "a@b.de")), None) in
  In p (loan_portfolio today cleaned lms) /\
  app_id (LoanPortfolio.a p) = None /\
  lms_columns_null p.
Proof.
  intros E good cleaned lms today p.
  assert (Hp : In p (loan_portfolio today cleaned lms)) by (left; reflexivity).
  split; [exact Hp|]. split; [reflexivity|].
  exact (proj2 (portfolio_rows_match_on_id today cleaned lms p Hp) eq_refl).
Defined.

Lemma matches_count `{Engine} (x : CleanedApplications.row) (lms : list LmsCleaned.row)
  (s : string) :
  app_id x = Some s ->
  SQL.COUNT (List.filter (fun l => SQL.holds (LoanPortfolio.on x l)) lms)
  = SQL.group_size (List.map lms_app_id lms) (Some s).
Proof.
  intros Hx. unfold SQL.group_size, SQL.COUNT. f_equal.
  induction lms as [|l lms IH]; [reflexivity|]. simpl.
  rewrite (on_holds x l s Hx).
  destruct (bool_decide (lms_app_id l = Some s)); simpl; now rewrite IH.
Qed.

Lemma no_match_for_null_id `{Engine} (x : CleanedApplications.row)
  (lms : list LmsCleaned.row) :
  app_id x = None -> List.filter (fun l => SQL.holds (LoanPortfolio.on x l)) lms = [].
Proof.
  intros Hx. induction lms as [|l lms IH]; [reflexivity|]. simpl.
  unfold LoanPortfolio.on at 1. unfold app_id in Hx. rewrite Hx. simpl. exact IH.
Qed.

(** When no application_id occurs twice in lms_cleaned, loan_portfolio has
    exactly one row per cleaned application. *)
Theorem portfolio_one_row_per_application `{Engine} (today : Date.t)
  (cleaned : list CleanedApplications.row) (lms : list LmsCleaned.row) :
  (forall s, SQL.group_size (List.map lms_app_id lms) (Some s) <= 1) ->
  length (loan_portfolio today cleaned lms) = length cleaned.
Proof.
  intros Huniq. unfold loan_portfolio, SQL.LEFT_JOIN. rewrite length_map.
  induction cleaned as [|x cleaned IH]; [reflexivity|].
  cbn [flat_map]. rewrite length_app, IH. cbn [length]. f_equal.
  destruct (app_id x) as [s|] eqn:Hx.
  - pose proof (matches_count x lms s Hx) as Hc. specialize (Huniq s).
    unfold SQL.COUNT in Hc.
    destruct (List.filter (fun l => SQL.holds (LoanPortfolio.on x l)) lms) as [|m [|m' ms]];
      [reflexivity|reflexivity|].
    simpl length in Hc. lia.
  - now rewrite (no_match_for_null_id x lms Hx).
Qed.

(** Two applications and one loan each. *)
Lemma portfolio_one_row_per_application_witness :
  let E := PlainEngine.engine in
  let cleaned := cleaned_applications Sample.t0
                   [Sample.good (Some "APP1") (Some "a@b.de");
                    Sample.good (Some "APP2") (Some "c@d.de")] in
  let lms := lms_cleaned Sample.t0
               [Sample.loan (Some "L1") (Some "APP1") (Some "2024-01-20") (Some "0");
                Sample.loan (Some "L2") (Some "APP2") (Some "2024-01-21") (Some "0")] in
  (forall s, SQL.group_size (List.map lms_app_id lms) (Some s) <= 1) /\
  length (loan_portfolio (Date.mk 2026 11 3) cleaned lms) = 2%nat.
Proof.
  intros E cleaned lms.
  assert (Huniq : forall s, SQL.group_size (List.map lms_app_id lms) (Some s) <= 1).
  { intros s. unfold SQL.group_size, SQL.COUNT. simpl.
    repeat case_bool_decide; simpl; try lia.
    repeat match goal with Hx : lms_app_id _ = _ |- _ => vm_compute in Hx end.
    congruence. }
  split; [exact Huniq|].
  exact (portfolio_one_row_per_application (Date.mk 2026 11 3) cleaned lms Huniq).
Defined.

(** ** Credit scores in the report *)

(** Over a whole run, an application whose risk category is Unknown or
    Invalid has its application_id in problematic_application_ids, which is
    then not NULL. *)
Theorem unknown_or_invalid_risk_is_reported `{Engine} (clk : clock)
  (raw_applications : list RawApplications.row) (raw_lms : list RawLms.row)
  (c : CleanedApplications.row) :
  In c (t_cleaned_applications (main clk raw_applications raw_lms)) ->
  CleanedApplications.risk_category c = "Unknown" \/
  CleanedApplications.risk_category c = "Invalid" ->
  exists ids,
    DataQualityReport.problematic_application_ids
      (t_data_quality_report (main clk raw_applications raw_lms)) = Some ids /\
    In (app_id c) ids.
Proof.
  cbn [main t_cleaned_applications t_data_quality_report data_quality_report
    DataQualityReport.problematic_application_ids].
  intros Hc Hrisk.
  assert (Himp : implicated
            (cleaned_applications (now_cleaned_applications clk)
               (raw_applications_good raw_applications))
            (lms_cleaned (now_lms_cleaned clk) raw_lms) (app_id c)).
  { left. exists c. split; [exact Hc|]. split; [reflexivity|].
    apply in_cleaned_applications in Hc as (g & _ & ->).
    destruct (risk_flags_agree (now_cleaned_applications clk)
                (app_dupes (raw_applications_good raw_applications)) g) as [Hu Hi].
    destruct Hrisk as [Hr|Hr].
    - apply Hu in Hr. exists "credit_score_missing".
      unfold CleanedApplications.data_quality_flags_expr. rewrite Hr. simpl. auto 10.
    - apply Hi in Hr. exists "credit_score_out_of_range".
      unfold CleanedApplications.data_quality_flags_expr. rewrite Hr. simpl. auto 10. }
  apply in_problematic_ids in Himp.
  pose proof (ARRAY_AGG_ORDER_BY_spec _
    (NoDup_problematic_ids
       (cleaned_applications (now_cleaned_applications clk)
          (raw_applications_good raw_applications))
       (lms_cleaned (now_lms_cleaned clk) raw_lms))) as Hagg.
  destruct (ARRAY_AGG_ORDER_BY _) as [ids|].
  - exists ids. split; [reflexivity|]. now apply Hagg.
  - rewrite Hagg in Himp. destruct Himp.
Qed.

(** One application with the credit score 900. *)
Lemma unknown_or_invalid_risk_is_reported_witness :
  let E := PlainEngine.engine in
  let raw := [Sample.application (Some "APP7") (Some "a@b.de") (Some "900") None] in
  let c900 := CleanedApplications.select (now_cleaned_applications Sample.clk)
                (app_dupes (raw_applications_good raw))
                (GoodApplications.select
                   (Sample.application (Some "APP7") (Some "a@b.de") (Some "900") None)) in
  In c900 (t_cleaned_applications (main Sample.clk raw [])) /\
  CleanedApplications.risk_category c900 = "Invalid" /\
  exists ids,
    DataQualityReport.problematic_application_ids
      (t_data_quality_report (main Sample.clk raw [])) = Some ids /\
    In (Some "APP7") ids.
Proof.
  intros E raw c900.
  assert (Hc : In c900 (t_cleaned_applications (main Sample.clk raw [])))
    by (left; reflexivity).
  assert (Hr : CleanedApplications.risk_category c900 = "Invalid") by reflexivity.
  split; [exact Hc|]. split; [exact Hr|].
  exact (unknown_or_invalid_risk_is_reported Sample.clk raw [] c900 Hc (or_intror Hr)).
Defined.

(** ** Failed conversions and quarantined rows *)

(** A value that does not convert is absorbed, not fatal: a credit_score
    that is NULL or fails TRY_CAST gives flag_credit_score_missing = TRUE and
    the risk category Unknown; a loan_amount_eur that is NULL or fails gives
    flag_loan_amount_non_positive = TRUE and a NULL loan_to_income_ratio; a
    days_past_due that is NULL or fails gives a NULL delinquency_bucket and
    flag_days_past_due_negative = FALSE. *)
Theorem failed_conversions_are_flagged `{Engine} (now : Timestamp.t)
  (dupes : list (option string * Z)) (loan_dupes app_dupes : list (option string))
  (g : GoodApplications.row) (r : RawLms.row) :
  (TRY_CAST TRY_CAST_INTEGER (GoodApplications.credit_score g) = None ->
   CleanedApplications.flag_credit_score_missing
     (CleanedApplications.flag (CleanedApplications.select now dupes g)) = Some true /\
   CleanedApplications.flag_credit_score_out_of_range
     (CleanedApplications.flag (CleanedApplications.select now dupes g)) = Some false /\
   CleanedApplications.risk_category (CleanedApplications.select now dupes g) = "Unknown") /\
  (TRY_CAST TRY_CAST_DOUBLE (GoodApplications.loan_amount_eur g) = None ->
   CleanedApplications.flag_loan_amount_non_positive
     (CleanedApplications.flag (CleanedApplications.select now dupes g)) = Some true /\
   CleanedApplications.loan_to_income_ratio (CleanedApplications.select now dupes g) = None) /\
  (TRY_CAST TRY_CAST_INTEGER (RawLms.days_past_due r) = None ->
   LmsCleaned.delinquency_bucket (LmsCleaned.select now loan_dupes app_dupes r) = None /\
   LmsCleaned.flag_days_past_due_negative
     (LmsCleaned.flag (LmsCleaned.select now loan_dupes app_dupes r)) = Some false).
Proof.
  split; [|split].
  - intros Hc.
    cbn [CleanedApplications.select CleanedApplications.flag CleanedApplications.risk_category
      CleanedApplications.select_flags CleanedApplications.flag_credit_score_missing
      CleanedApplications.flag_credit_score_out_of_range CleanedApplications.select_typed
      CleanedApplications.credit_score].
    rewrite Hc. repeat split.
  - intros Hl.
    cbn [CleanedApplications.select CleanedApplications.flag
      CleanedApplications.loan_to_income_ratio CleanedApplications.select_flags
      CleanedApplications.flag_loan_amount_non_positive].
    unfold CleanedApplications.loan_to_income_ratio_expr.
    cbn [CleanedApplications.select_flags CleanedApplications.flag_loan_amount_non_positive
      CleanedApplications.select_typed CleanedApplications.loan_amount_eur
      CleanedApplications.annual_income_eur].
    rewrite Hl. split; [reflexivity|].
    destruct (TRY_CAST TRY_CAST_DOUBLE (GoodApplications.annual_income_eur g)) as [i|];
      simpl; [destruct (DOUBLE_le_0 i)|]; reflexivity.
  - intros Hd.
    cbn [LmsCleaned.select LmsCleaned.flag LmsCleaned.delinquency_bucket
      LmsCleaned.select_flags LmsCleaned.flag_days_past_due_negative
      LmsCleaned.select_typed LmsCleaned.days_past_due].
    rewrite Hd. split; reflexivity.
Qed.

